(** * cloudinary-signer: a shallow embedding of the signing proxy

    The repository holds four variants of one Express service.  Two of them
    carry every route the specification talks about:

    - [Legacy]  : the first program of [src/index.js] (Firebase token, then
                  the admin-only role check, Cloudinary client library for
                  deletes);
    - [RolesDoc]: [src/unnamed/part_000] (Firebase token, then the
                  admin-or-moderator role check, hand-made destroy call,
                  role write).

    The other two, further down [src/index.js], repeat the [/sign] handler
    of [part_000]: [SharedKey] behind a shared key and an e-mail check,
    [Open] behind no check at all.

    JavaScript strings are embedded as Rocq strings, one character per code
    unit; this is exact for ASCII text, which is what every literal of the
    service is.  JavaScript numbers are embedded as integers ([Z]); this is
    exact for the integer-valued numbers of magnitude below 1e21, which is
    what a unix timestamp is. *)

From Stdlib Require Import ZArith String Ascii List.
From stdpp Require Import base option list sorting strings pretty gmap.

Set Warnings "-register-all".
Local Open Scope string_scope.
Local Open Scope Z_scope.

(** ** JavaScript values *)

Module JS.

Inductive value : Type :=
  | Undefined
  | Null
  | Bool (b : bool)
  | Num (n : Z)
  | Str (s : string)
  | Arr (items : list value)
  | Obj (fields : list (string * value)).

(** An object is the list of its own properties in creation order. *)
Definition object : Type := list (string * value).

(** [o[k]]: the value of property [k], [undefined] when there is none. *)
Fixpoint get (o : object) (k : string) : value :=
  match o with
  | [] => Undefined
  | (k', v) :: rest => if String.eqb k' k then v else get rest k
  end.

Fixpoint has (o : object) (k : string) : bool :=
  match o with
  | [] => false
  | (k', _) :: rest => String.eqb k' k || has rest k
  end.

(** [o[k] = v]: overwrite in place, or append a new property. *)
Fixpoint set (o : object) (k : string) (v : value) : object :=
  match o with
  | [] => [(k, v)]
  | (k', v') :: rest =>
      if String.eqb k' k then (k', v) :: rest else (k', v') :: set rest k v
  end.

(** [Object.keys(o)] for property names that are not array indices. *)
Definition keys (o : object) : list string := map fst o.

(** ToBoolean. *)
Definition truthy (v : value) : bool :=
  match v with
  | Undefined | Null => false
  | Bool b => b
  | Num n => negb (n =? 0)
  | Str s => negb (String.eqb s "")
  | Arr _ | Obj _ => true
  end.

(** [a || b] and [a ?? b]. *)
Definition or (a b : value) : value := if truthy a then a else b.

Definition coalesce (a b : value) : value :=
  match a with
  | Undefined | Null => b
  | _ => a
  end.

(** [a !== "lit"] is the negation of this. *)
Definition is_str (v : value) (lit : string) : bool :=
  match v with
  | Str s => String.eqb s lit
  | _ => false
  end.

Definition join (sep : string) (parts : list string) : string :=
  String.concat sep parts.

(** ToString, as a template literal applies it.  [None] stands for the
    TypeError raised on an object whose own [toString] property shadows the
    inherited method (a parsed JSON document holds no function). *)
Fixpoint to_string (v : value) : option string :=
  match v with
  | Undefined => Some "undefined"
  | Null => Some "null"
  | Bool true => Some "true"
  | Bool false => Some "false"
  | Num n => Some (pretty n)
  | Str s => Some s
  | Arr items =>
      let item (x : value) : option string :=
        match x with
        | Undefined | Null => Some ""
        | _ => to_string x
        end in
      (fix go (xs : list value) : option (list string) :=
         match xs with
         | [] => Some []
         | x :: xs' =>
             match item x, go xs' with
             | Some s, Some ss => Some (s :: ss)
             | _, _ => None
             end
         end) items ≫= λ parts, Some (join "," parts)
  | Obj fields =>
      if has fields "toString" then None else Some "[object Object]"
  end.

(** [String.prototype.trim], [toLowerCase] and [slice(n)] on the code units
    below 256: the white space there is TAB, LF, VT, FF, CR, SP and NBSP, and
    the letters with a lower case are A-Z. *)
Definition is_space (a : ascii) : bool :=
  let n := N_of_ascii a in
  ((9 <=? n) && (n <=? 13) || (n =? 32) || (n =? 160))%N.

Fixpoint trim_start (s : string) : string :=
  match s with
  | String a s' => if is_space a then trim_start s' else s
  | EmptyString => EmptyString
  end.

Definition trim (s : string) : string :=
  String.rev (trim_start (String.rev (trim_start s))).

Definition lower (a : ascii) : ascii :=
  let n := N_of_ascii a in
  if ((65 <=? n) && (n <=? 90))%N then ascii_of_N (n + 32) else a.

Fixpoint toLowerCase (s : string) : string :=
  match s with
  | String a s' => String (lower a) (toLowerCase s')
  | EmptyString => EmptyString
  end.

Fixpoint slice (n : nat) (s : string) : string :=
  match n, s with
  | S n', String _ s' => slice n' s'
  | _, _ => s
  end.

Definition is_undefined (v : value) : bool :=
  match v with Undefined => true | _ => false end.

(** The keys [JSON.stringify] writes: properties holding [undefined] are
    dropped from the serialised object. *)
Definition wire_keys (o : object) : list string :=
  keys (List.filter (λ kv, negb (is_undefined kv.2)) o).

End JS.

(** ** SHA-1 (FIPS 180-4), the digest behind [crypto.createHash("sha1")]

    Words are 32-bit integers held in [Z]; every addition wraps modulo
    2^32.  [update(s)] feeds the UTF-8 bytes of [s], which for ASCII text
    are its code units. *)

Module SHA1.

Definition mask32 (x : Z) : Z := Z.land x 0xFFFFFFFF.

Definition add32 (x y : Z) : Z := mask32 (x + y).

Definition rotl (n x : Z) : Z :=
  mask32 (Z.lor (Z.shiftl x n) (Z.shiftr x (32 - n))).

Definition not32 (x : Z) : Z := Z.lxor x 0xFFFFFFFF.

(** Section 4.1.1: the round function and section 4.2.1: the constant. *)
Definition f (t : nat) (b c d : Z) : Z :=
  if (t <? 20)%nat then Z.lor (Z.land b c) (Z.land (not32 b) d)
  else if (t <? 40)%nat then Z.lxor (Z.lxor b c) d
  else if (t <? 60)%nat then
    Z.lor (Z.lor (Z.land b c) (Z.land b d)) (Z.land c d)
  else Z.lxor (Z.lxor b c) d.

Definition K (t : nat) : Z :=
  if (t <? 20)%nat then 0x5A827999
  else if (t <? 40)%nat then 0x6ED9EBA1
  else if (t <? 60)%nat then 0x8F1BBCDC
  else 0xCA62C1D6.

Definition bytes_of_string (s : string) : list Z :=
  map (λ a, Z.of_N (N_of_ascii a)) (list_ascii_of_string s).

(** Big-endian bytes of [x], [n] of them. *)
Fixpoint be_bytes (n : nat) (x : Z) : list Z :=
  match n with
  | O => []
  | S n' => Z.land (Z.shiftr x (8 * Z.of_nat n')) 0xFF :: be_bytes n' x
  end.

(** Section 5.1.1: a one bit, zeros up to 56 modulo 64, the bit length. *)
Definition pad (msg : list Z) : list Z :=
  let len := Z.of_nat (length msg) in
  let zeros := Z.to_nat ((55 - len) mod 64) in
  msg ++ 0x80 :: replicate zeros 0 ++ be_bytes 8 (8 * len).

Fixpoint words_of_bytes (bs : list Z) : list Z :=
  match bs with
  | b0 :: b1 :: b2 :: b3 :: rest =>
      Z.lor (Z.shiftl b0 24)
        (Z.lor (Z.shiftl b1 16) (Z.lor (Z.shiftl b2 8) b3))
      :: words_of_bytes rest
  | _ => []
  end.

Fixpoint chunks (fuel : nat) (ws : list Z) : list (list Z) :=
  match fuel, ws with
  | S fuel', _ :: _ => take 16 ws :: chunks fuel' (drop 16 ws)
  | _, _ => []
  end.

(** Section 6.1.2 step 1: the message schedule, newest word first. *)
Fixpoint schedule (n : nat) (rev_w : list Z) : list Z :=
  match n with
  | O => rev_w
  | S n' =>
      let w i := nth i rev_w 0 in
      let x := rotl 1 (Z.lxor (Z.lxor (w 2%nat) (w 7%nat))
                              (Z.lxor (w 13%nat) (w 15%nat))) in
      schedule n' (x :: rev_w)
  end.

Record state : Type := State { ha : Z; hb : Z; hc : Z; hd : Z; he : Z }.

Definition H0 : state :=
  State 0x67452301 0xEFCDAB89 0x98BADCFE 0x10325476 0xC3D2E1F0.

Fixpoint rounds (t : nat) (ws : list Z) (s : state) : state :=
  match ws with
  | [] => s
  | w :: ws' =>
      let temp :=
        add32 (add32 (add32 (add32 (rotl 5 (ha s)) (f t (hb s) (hc s) (hd s)))
                            (he s)) (K t)) w in
      rounds (S t) ws' (State temp (ha s) (rotl 30 (hb s)) (hc s) (hd s))
  end.

Definition compress (h : state) (block : list Z) : state :=
  let w := rev (schedule 64 (rev block)) in
  let s := rounds 0 w h in
  State (add32 (ha h) (ha s)) (add32 (hb h) (hb s)) (add32 (hc h) (hc s))
        (add32 (hd h) (hd s)) (add32 (he h) (he s)).

Definition digest_words (msg : list Z) : list Z :=
  let ws := words_of_bytes (pad msg) in
  let h := fold_left compress (chunks (length ws) ws) H0 in
  [ha h; hb h; hc h; hd h; he h].

Definition hex_digit (n : Z) : ascii :=
  ascii_of_N (Z.to_N (if n <? 10 then 48 + n else 87 + n)).

(** The eight lowercase hexadecimal digits of a 32-bit word. *)
Definition hex_word (w : Z) : list ascii :=
  map (λ i, hex_digit (Z.land (Z.shiftr w (4 * i)) 0xF))
      [7; 6; 5; 4; 3; 2; 1; 0].

(** [crypto.createHash("sha1").update(s).digest("hex")]. *)
Definition hex (s : string) : string :=
  string_of_list_ascii
    (concat (map hex_word (digest_words (bytes_of_string s)))).

End SHA1.

Arguments SHA1.hex : simpl never.

(** ** The Signer

    The signing steps appear verbatim in every [/sign] handler:
    [Object.keys(params).sort().map((k) => `${k}=${params[k]}`).join("&")],
    then the SHA-1 of that string followed by the secret.  The default
    [sort] orders strings by code unit. *)

Module Signer.

Definition sorted_keys (params : JS.object) : list string :=
  merge_sort String.le (JS.keys params).

Definition pair (params : JS.object) (k : string) : option string :=
  v ← JS.to_string (JS.get params k); Some (k +:+ "=" +:+ v).

Definition stringToSign (params : JS.object) : option string :=
  parts ← mapM (pair params) (sorted_keys params);
  Some (JS.join "&" parts).

Definition signature (stringToSign secret : string) : string :=
  SHA1.hex (stringToSign +:+ secret).

Definition sign (params : JS.object) (secret : string) : option string :=
  s ← stringToSign params; Some (signature s secret).

End Signer.

(** ** Requests, responses and the world a handler runs in *)

Record Decoded : Type := { uid : string }.

Record Request : Type := {
  authorization : option string;       (* req.header("authorization") *)
  body : JS.object;                    (* req.body *)
  user : option Decoded;               (* req.user *)
  role : JS.value                      (* req.role *)
}.

Record Response : Type := { status : Z; json : JS.object }.

(** What a handler makes happen outside itself, in order. *)
Inductive Event : Type :=
  | EvVerify (token : string)
  | EvRoleGet (uid : string)
  | EvRoleSet (uid : string) (fields : list (string * JS.value))
  | EvHash (input : string)
  | EvDestroy (public_id : JS.value)
  | EvFetch (url : string) (form : list (string * string)).

(** The Firestore collection [roles]: document id to fields. *)
Record World : Type := {
  roles : gmap string (gmap string JS.value);
  log : list Event
}.

(** [process.env] and the state left by [initFirebaseAdmin]. *)
Record Config : Type := {
  CLOUD_NAME : option string;
  API_KEY : option string;
  API_SECRET : option string;
  firebase_ready : bool                (* admin.apps.length > 0 *)
}.

(** The collaborators the service calls and does not implement.  A [inr e]
    or [Some e] answer is a rejection whose [String(e)] is [e].
    - [verifyIdToken]: [admin.auth().verifyIdToken];
    - [Date_now]: the clock, in milliseconds;
    - [firestore_down]: when [Some e], every Firestore call rejects with [e];
    - [doc_path]: the document [roles.doc(id)] designates, or the rejection
      of an id Firestore does not take;
    - [serverTimestamp]: what the store writes for
      [FieldValue.serverTimestamp()];
    - [uploader_destroy]: [cloudinary.uploader.destroy];
    - [fetch]: the POST of a form to a URL, answered by a status and a text;
    - [JSON_parse]: [JSON.parse], [None] when it throws. *)
Record Oracles : Type := {
  verifyIdToken : string → Decoded + string;
  Date_now : Z;
  firestore_down : option string;
  doc_path : JS.value → string + string;
  serverTimestamp : JS.value;
  uploader_destroy : JS.value → JS.value + string;
  fetch : string → list (string * string) → (Z * string) + string;
  JSON_parse : string → option JS.value
}.

Definition env (v : option string) : JS.value :=
  match v with Some s => JS.Str s | None => JS.Undefined end.

(** [x + API_SECRET] and the like. *)
Definition env_text (v : option string) : string := default "undefined" v.

Definition env_ok (cfg : Config) : bool :=
  JS.truthy (env (CLOUD_NAME cfg)) && JS.truthy (env (API_KEY cfg))
  && JS.truthy (env (API_SECRET cfg)).

(** A step of a handler: it goes on with a value, sends the response (and
    returns), or throws. *)
Inductive Outcome (A : Type) : Type :=
  | Next (a : A)
  | Sent (r : Response)
  | Thrown (e : string).
Arguments Next {A} a.
Arguments Sent {A} r.
Arguments Thrown {A} e.

Definition M (A : Type) : Type := World → Outcome A * World.

#[global] Instance M_ret : MRet M := λ A a w, (Next a, w).

#[global] Instance M_bind : MBind M := λ A B k m w,
  match m w with
  | (Next a, w') => k a w'
  | (Sent r, w') => (Sent r, w')
  | (Thrown e, w') => (Thrown e, w')
  end.

(** [return res.status(code).json(body)]. *)
Definition send {A} (code : Z) (b : JS.object) : M A :=
  λ w, (Sent {| status := code; json := b |}, w).

Definition throw {A} (e : string) : M A := λ w, (Thrown e, w).

Definition emit (ev : Event) : M unit :=
  λ w, (Next tt, {| roles := roles w; log := log w ++ [ev] |}).

(** [try { m } catch (e) { h(e) }]. *)
Definition try_catch {A} (m : M A) (h : string → M A) : M A := λ w,
  match m w with
  | (Thrown e, w') => h e w'
  | r => r
  end.

(** The two TypeErrors a request can provoke, as [String(e)] prints them. *)
Definition not_primitive : string :=
  "TypeError: Cannot convert object to primitive value".
Definition not_a_function : string :=
  "TypeError: (intermediate value).toString is not a function".

Definition of_option {A} (e : string) (o : option A) : M A :=
  match o with Some a => mret a | None => throw e end.

Section Collaborators.
Context (orc : Oracles).

Definition verify (token : string) : M Decoded :=
  _ ← emit (EvVerify token);
  match verifyIdToken orc token with
  | inl d => mret d
  | inr e => throw e
  end.

(** [admin.firestore().collection("roles").doc(uid).get()]: [None] is a
    snapshot whose [exists] is false. *)
Definition roles_get (id : string) : M (option (gmap string JS.value)) :=
  _ ← emit (EvRoleGet id);
  match firestore_down orc with
  | Some e => throw e
  | None => λ w, (Next (roles w !! id), w)
  end.

(** [.doc(id).set(fields, { merge: true })]. *)
Definition roles_set_merge (id : JS.value)
    (fields : list (string * JS.value)) : M unit :=
  match doc_path orc id with
  | inr e => throw e
  | inl path =>
      _ ← emit (EvRoleSet path fields);
      match firestore_down orc with
      | Some e => throw e
      | None => λ w,
          let old := default ∅ (roles w !! path) in
          (Next tt,
           {| roles := <[path := list_to_map fields ∪ old]> (roles w);
              log := log w |})
      end
  end.

(** [crypto.createHash("sha1").update(input).digest("hex")]. *)
Definition sha1_hex (input : string) : M string :=
  _ ← emit (EvHash input); mret (SHA1.hex input).

(** [Math.floor(Date.now() / 1000)]. *)
Definition unix_seconds : Z := Date_now orc / 1000.

End Collaborators.

(** [snap.data()?.role] of an existing document. *)
Definition role_field (doc : gmap string JS.value) : JS.value :=
  default JS.Undefined (doc !! "role"%string).

(** [auth.startsWith("Bearer ") ? auth.slice(7).trim() : null], with
    [!idToken] folded in: [None] when the token is null or empty. *)
Definition bearer (auth : string) : option string :=
  if String.prefix "Bearer " auth then
    let t := JS.trim (JS.slice 7 auth) in
    if String.eqb t "" then None else Some t
  else None.

(** The parameter object every [/sign] handler builds:
    [const params = { folder, timestamp };
     if (public_id) params.public_id = public_id;]. *)
Definition sign_params (folder public_id : JS.value) (timestamp : Z)
    : JS.object :=
  let params := [("folder", folder); ("timestamp", JS.Num timestamp)] in
  if JS.truthy public_id then JS.set params "public_id" public_id
  else params.

(** ** [src/unnamed/part_000]: token, roles document, sign, delete, role write *)

Module RolesDoc.
Section Program.
Context (cfg : Config) (orc : Oracles).

Definition requireAuth (req : Request) : M Request :=
  try_catch
    (if negb (firebase_ready cfg) then
       send 500 [("error", JS.Str "Firebase Admin not initialized")]
     else
       let auth := default "" (authorization req) in
       match bearer auth with
       | None => send 401 [("error", JS.Str "Missing Authorization token")]
       | Some idToken =>
           decoded ← verify orc idToken;
           mret {| authorization := authorization req; body := body req;
                   user := Some decoded; role := role req |}
       end)
    (λ e, send 401 [("error", JS.Str "Invalid token");
                    ("details", JS.Str e)]).

(** [(snap.exists ? (snap.data()?.role || "") : "")
      .toString().toLowerCase().trim()]. *)
Definition resolved_role (snap : option (gmap string JS.value))
    : option string :=
  let raw := match snap with
             | Some doc => JS.or (role_field doc) (JS.Str "")
             | None => JS.Str ""
             end in
  s ← JS.to_string raw; Some (JS.trim (JS.toLowerCase s)).

Definition requireAdminOrModeratorByRolesDoc (req : Request) : M Request :=
  try_catch
    (match user req with
     | Some {| uid := id |} =>
         if String.eqb id "" then send 401 [("error", JS.Str "No uid")]
         else
           snap ← roles_get orc id;
           r ← of_option not_a_function (resolved_role snap);
           if negb (String.eqb r "admin") && negb (String.eqb r "moderator")
           then send 403 [("error",
                           JS.Str "Forbidden: admin/moderator only")]
           else mret {| authorization := authorization req;
                        body := body req; user := user req;
                        role := JS.Str r |}
     | None => send 401 [("error", JS.Str "No uid")]
     end)
    (λ e, send 500 [("error", JS.Str "Role check failed");
                    ("details", JS.Str e)]).

Definition sign (req : Request) : M Empty_set :=
  try_catch
    (let folder := JS.get (body req) "folder" in
     let public_id := JS.get (body req) "public_id" in
     if negb (JS.truthy folder) then
       send 400 [("error", JS.Str "folder required")]
     else if negb (env_ok cfg) then
       send 500 [("error", JS.Str "Cloudinary env vars not set")]
     else
       let timestamp := unix_seconds orc in
       let params := sign_params folder public_id timestamp in
       stringToSign ← of_option not_primitive (Signer.stringToSign params);
       signature ← sha1_hex (stringToSign +:+ env_text (API_SECRET cfg));
       send 200 [("cloudName", env (CLOUD_NAME cfg));
                 ("apiKey", env (API_KEY cfg));
                 ("timestamp", JS.Num timestamp);
                 ("signature", JS.Str signature);
                 ("folder", folder);
                 ("public_id", JS.coalesce public_id JS.Null);
                 ("stringToSign", JS.Str stringToSign)])
    (λ e, send 500 [("error", JS.Str e)]).

(** [`public_id=${public_id}&timestamp=${timestamp}`]. *)
Definition destroy_stringToSign (public_id : JS.value) (timestamp : Z)
    : option string :=
  p ← JS.to_string public_id;
  Some ("public_id=" +:+ p +:+ "&timestamp=" +:+ pretty timestamp).

(** [resp.ok]. *)
Definition resp_ok (code : Z) : bool := (200 <=? code) && (code <=? 299).

(** [json ?? text] after [try { json = JSON.parse(text) } catch (_) {}]. *)
Definition json_or_text (text : string) : JS.value :=
  JS.coalesce (default JS.Null (JSON_parse orc text)) (JS.Str text).

Definition cloudinary_delete (req : Request) : M Empty_set :=
  try_catch
    (let public_id := JS.get (body req) "public_id" in
     if negb (JS.truthy public_id) then
       send 400 [("error", JS.Str "public_id required")]
     else if negb (env_ok cfg) then
       send 500 [("error", JS.Str "Cloudinary env vars not set")]
     else
       let timestamp := unix_seconds orc in
       stringToSign ← of_option not_primitive
                        (destroy_stringToSign public_id timestamp);
       signature ← sha1_hex (stringToSign +:+ env_text (API_SECRET cfg));
       p ← of_option not_primitive (JS.to_string public_id);
       let formBody := [("api_key", env_text (API_KEY cfg));
                        ("timestamp", pretty timestamp);
                        ("public_id", p);
                        ("signature", signature)] in
       let url := "https://api.cloudinary.com/v1_1/"
                  +:+ env_text (CLOUD_NAME cfg) +:+ "/image/destroy" in
       _ ← emit (EvFetch url formBody);
       match fetch orc url formBody with
       | inr e => throw e
       | inl (code, text) =>
           if negb (resp_ok code) then
             send 500 [("error", JS.Str "Cloudinary destroy failed");
                       ("status", JS.Num code);
                       ("body", json_or_text text)]
           else
             send 200 [("ok", JS.Bool true);
                       ("cloudinary", json_or_text text)]
       end)
    (λ e, send 500 [("error", JS.Str e)]).

Definition allowed : list string := ["admin"; "moderator"; "user"].

(** [allowed.includes(role)]. *)
Definition includes (l : list string) (v : JS.value) : bool :=
  existsb (JS.is_str v) l.

Definition roles_set (req : Request) : M Empty_set :=
  try_catch
    (if negb (JS.is_str (role req) "admin") then
       send 403 [("error", JS.Str "Admins only")]
     else
       let uid := JS.get (body req) "uid" in
       let role := JS.get (body req) "role" in
       if negb (JS.truthy uid) then
         send 400 [("error", JS.Str "uid required")]
       else if negb (includes allowed role) then
         send 400 [("error", JS.Str "invalid role")]
       else
         _ ← roles_set_merge orc uid
               [("role", role); ("updatedAt", serverTimestamp orc)];
         send 200 [("ok", JS.Bool true); ("uid", uid); ("role", role)])
    (λ e, send 500 [("error", JS.Str e)]).

(** [app.post(path, requireAuth, requireAdminOrModeratorByRolesDoc, h)]. *)
Definition gate (req : Request) : M Request :=
  req1 ← requireAuth req; requireAdminOrModeratorByRolesDoc req1.

Definition post_sign (req : Request) : M Empty_set :=
  req' ← gate req; sign req'.
Definition post_cloudinary_delete (req : Request) : M Empty_set :=
  req' ← gate req; cloudinary_delete req'.
Definition post_roles_set (req : Request) : M Empty_set :=
  req' ← gate req; roles_set req'.

End Program.
End RolesDoc.

(** ** [src/index.js], first program: token, admin-only check, sign, delete *)

Module Legacy.
Section Program.
Context (cfg : Config) (orc : Oracles).

Definition mustHaveEnv : M unit :=
  if negb (env_ok cfg) then throw "Error: Cloudinary env vars not set"
  else if negb (firebase_ready cfg) then
    throw "Error: Firebase Admin not initialized"
  else mret tt.

Definition requireAuth (req : Request) : M Request :=
  try_catch
    (_ ← mustHaveEnv;
     let auth := default "" (authorization req) in
     match bearer auth with
     | None =>
         send 401 [("error", JS.Str "Missing Authorization Bearer token")]
     | Some idToken =>
         decoded ← verify orc idToken;
         mret {| authorization := authorization req; body := body req;
                 user := Some decoded; role := role req |}
     end)
    (λ e, send 401 [("error", JS.Str "Invalid token");
                    ("details", JS.Str e)]).

(** [(roleDoc.exists ? roleDoc.data()?.role : null) || "user"]. *)
Definition resolved_role (snap : option (gmap string JS.value))
    : JS.value :=
  JS.or (match snap with
         | Some doc => role_field doc
         | None => JS.Null
         end) (JS.Str "user").

Definition requireAdmin (req : Request) : M Request :=
  try_catch
    (match user req with
     | Some {| uid := id |} =>
         if String.eqb id "" then
           send 401 [("error", JS.Str "No user in request")]
         else
           roleDoc ← roles_get orc id;
           let role := resolved_role roleDoc in
           if negb (JS.is_str role "admin") then
             send 403 [("error", JS.Str "Not admin")]
           else mret req
     | None => send 401 [("error", JS.Str "No user in request")]
     end)
    (λ e, send 500 [("error", JS.Str "Role check failed");
                    ("details", JS.Str e)]).

(** Defined by the program, mounted on no route. *)
Definition requireModeratorOrAdmin (req : Request) : M Request :=
  try_catch
    (match user req with
     | Some {| uid := id |} =>
         if String.eqb id "" then
           send 401 [("error", JS.Str "No user in request")]
         else
           roleDoc ← roles_get orc id;
           let role := resolved_role roleDoc in
           if negb (JS.is_str role "admin")
              && negb (JS.is_str role "moderator") then
             send 403 [("error", JS.Str "Not allowed")]
           else mret req
     | None => send 401 [("error", JS.Str "No user in request")]
     end)
    (λ e, send 500 [("error", JS.Str "Role check failed");
                    ("details", JS.Str e)]).

Definition sign (req : Request) : M Empty_set :=
  try_catch
    (_ ← mustHaveEnv;
     let folder := JS.get (body req) "folder" in
     let public_id := JS.get (body req) "public_id" in
     if negb (JS.truthy folder) then
       send 400 [("error", JS.Str "folder required")]
     else
       let timestamp := unix_seconds orc in
       let params := sign_params folder public_id timestamp in
       stringToSign ← of_option not_primitive (Signer.stringToSign params);
       signature ← sha1_hex (stringToSign +:+ env_text (API_SECRET cfg));
       send 200 [("cloudName", env (CLOUD_NAME cfg));
                 ("apiKey", env (API_KEY cfg));
                 ("timestamp", JS.Num timestamp);
                 ("signature", JS.Str signature);
                 ("folder", folder);
                 ("public_id", JS.coalesce public_id JS.Null)])
    (λ e, send 500 [("error", JS.Str e)]).

(** [cloudinary.uploader.destroy(public_id, { resource_type: "image",
    invalidate: true })]. *)
Definition destroy (public_id : JS.value) : M JS.value :=
  _ ← emit (EvDestroy public_id);
  match uploader_destroy orc public_id with
  | inl result => mret result
  | inr e => throw e
  end.

Definition cloudinary_delete (req : Request) : M Empty_set :=
  try_catch
    (_ ← mustHaveEnv;
     let public_id := JS.get (body req) "public_id" in
     if negb (JS.truthy public_id) then
       send 400 [("error", JS.Str "public_id required")]
     else
       result ← destroy public_id;
       send 200 [("ok", JS.Bool true); ("public_id", public_id);
                 ("result", result)])
    (λ e, send 500 [("error", JS.Str "Cloudinary delete failed");
                    ("details", JS.Str e)]).

(** [app.post(path, requireAuth, requireAdmin, h)]. *)
Definition gate (req : Request) : M Request :=
  req1 ← requireAuth req; requireAdmin req1.

Definition post_sign (req : Request) : M Empty_set :=
  req' ← gate req; sign req'.
Definition post_cloudinary_delete (req : Request) : M Empty_set :=
  req' ← gate req; cloudinary_delete req'.

End Program.
End Legacy.

(** A request as it arrives: nothing attached by a middleware yet. *)
Definition incoming (auth : option string) (b : JS.object) : Request :=
  {| authorization := auth; body := b; user := None; role := JS.Undefined |}.

Definition start (store : gmap string (gmap string JS.value)) : World :=
  {| roles := store; log := [] |}.

Definition hashes (w : World) : list string :=
  omap (λ ev, match ev with EvHash i => Some i | _ => None end) (log w).

Definition outbound (w : World) : list Event :=
  List.filter (λ ev, match ev with
                      | EvDestroy _ | EvFetch _ _ => true
                      | _ => false
                      end) (log w).

Definition writes (w : World) : list Event :=
  List.filter (λ ev, match ev with EvRoleSet _ _ => true | _ => false end)
              (log w).

(** ** [src/index.js], second program: shared key, administrator e-mail *)

Module SharedKey.

(** [process.env.SIGNER_KEY] and [process.env.ADMIN_EMAIL]. *)
Record Settings : Type := {
  SIGNER_KEY : option string;
  ADMIN_EMAIL_env : option string
}.

(** A request with its [x-signer-key] header. *)
Record Call : Type := {
  x_signer_key : option string;
  request : Request
}.

(** [(process.env.ADMIN_EMAIL || "").trim().toLowerCase()]. *)
Definition ADMIN_EMAIL (st : Settings) : string :=
  JS.toLowerCase (JS.trim (default "" (ADMIN_EMAIL_env st))).

Definition line_terminator (a : ascii) : bool :=
  let n := N_of_ascii a in ((n =? 10) || (n =? 13))%N.

(** [authHeader.match(/^Bearer (.+)$/i)], then [match[1]]: the word in any
    letter case, one blank, and a rest that is not empty and holds no line
    terminator. *)
Definition bearer_i (auth : string) : option string :=
  let rest := JS.slice 7 auth in
  if String.eqb (JS.toLowerCase (String.substring 0 7 auth)) "bearer "
     && negb (String.eqb rest "")
     && forallb (λ a, negb (line_terminator a)) (list_ascii_of_string rest)
  then Some rest else None.

Definition no_trim : string :=
  "TypeError: (intermediate value).trim is not a function".

Section Program.
Context (cfg : Config) (st : Settings) (orc : Oracles).
(** [decoded.email] of the token verified last. *)
Context (email_of : string → JS.value).

Definition requireSignerKey (c : Call) : M Call :=
  match SIGNER_KEY st with
  | None | Some "" => send 500 [("error", JS.Str "Server SIGNER_KEY not set")]
  | Some expected =>
      match x_signer_key c with
      | Some got =>
          if String.eqb got "" || negb (String.eqb got expected) then
            send 401 [("error", JS.Str "Invalid signer key")]
          else mret c
      | None => send 401 [("error", JS.Str "Invalid signer key")]
      end
  end.

Definition requireAdmin (req : Request) : M Request :=
  try_catch
    (if negb (firebase_ready cfg) then
       send 500 [("error", JS.Str "Firebase Admin not initialized")]
     else if String.eqb (ADMIN_EMAIL st) "" then
       send 500 [("error", JS.Str "Server ADMIN_EMAIL not set")]
     else
       let authHeader := default "" (authorization req) in
       match bearer_i authHeader with
       | None =>
           send 401 [("error", JS.Str "Missing Authorization Bearer token")]
       | Some idToken =>
           decoded ← verify orc idToken;
           match JS.or (email_of idToken) (JS.Str "") with
           | JS.Str raw =>
               let email := JS.toLowerCase (JS.trim raw) in
               if String.eqb email "" then
                 send 403 [("error", JS.Str "Token has no email")]
               else if negb (String.eqb email (ADMIN_EMAIL st)) then
                 send 403 [("error", JS.Str "Not admin")]
               else
                 mret {| authorization := authorization req;
                         body := body req; user := Some decoded;
                         role := role req |}
           | _ => throw no_trim
           end
       end)
    (λ e, send 401 [("error", JS.Str "Invalid token");
                    ("details", JS.Str e)]).

(** The handler is, word for word, the one of [part_000]. *)
Definition sign : Request → M Empty_set := RolesDoc.sign cfg orc.

(** [app.post("/sign", requireSignerKey, requireAdmin, h)]. *)
Definition post_sign (c : Call) : M Empty_set :=
  c1 ← requireSignerKey c; req' ← requireAdmin (request c1); sign req'.

End Program.
End SharedKey.

(** ** [src/index.js], third program: [/sign] behind no check *)

Module Open.
Section Program.
Context (cfg : Config) (orc : Oracles).

Definition sign (req : Request) : M Empty_set :=
  try_catch
    (let folder := JS.get (body req) "folder" in
     let public_id := JS.get (body req) "public_id" in
     if negb (JS.truthy folder) then
       send 400 [("error", JS.Str "folder required")]
     else if negb (env_ok cfg) then
       send 500 [("error", JS.Str "Server env vars not set")]
     else
       let timestamp := unix_seconds orc in
       let params := sign_params folder public_id timestamp in
       stringToSign ← of_option not_primitive (Signer.stringToSign params);
       signature ← sha1_hex (stringToSign +:+ env_text (API_SECRET cfg));
       send 200 [("cloudName", env (CLOUD_NAME cfg));
                 ("apiKey", env (API_KEY cfg));
                 ("timestamp", JS.Num timestamp);
                 ("signature", JS.Str signature);
                 ("folder", folder);
                 ("public_id", JS.coalesce public_id JS.Null);
                 ("stringToSign", JS.Str stringToSign)])
    (λ e, send 500 [("error", JS.Str e)]).

(** [app.post("/sign", h)]. *)
Definition post_sign : Request → M Empty_set := sign.

End Program.
End Open.

(** ** Start-up: [initFirebaseAdmin] of [part_000] and of the first program
    of [src/index.js] *)

Module Startup.

Record Env : Type := {
  FIREBASE_SERVICE_ACCOUNT_JSON : option string;
  FIREBASE_SERVICE_ACCOUNT_BASE64 : option string
}.

(** What the start-up code calls: [Buffer.from(s, "base64").toString("utf8")],
    [JSON.parse] ([None] when it throws) and
    [admin.initializeApp({credential: admin.credential.cert(account)})]
    ([false] when either call throws). *)
Record Sdk : Type := {
  from_base64 : string → string;
  parse : string → option JS.value;
  initializeApp : JS.value → bool
}.

(** The [serviceAccount] the function ends up with: [None] when a
    [JSON.parse] threw, [Some JS.Null] when no branch assigned it. *)
Definition serviceAccount (sdk : Sdk) (e : Env) : option JS.value :=
  if JS.truthy (env (FIREBASE_SERVICE_ACCOUNT_JSON e))
     && String.prefix "{"
          (JS.trim (default "" (FIREBASE_SERVICE_ACCOUNT_JSON e)))
  then parse sdk (default "" (FIREBASE_SERVICE_ACCOUNT_JSON e))
  else if JS.truthy (env (FIREBASE_SERVICE_ACCOUNT_BASE64 e)) then
    parse sdk
      (from_base64 sdk (default "" (FIREBASE_SERVICE_ACCOUNT_BASE64 e)))
  else Some JS.Null.

(** Whether [admin.apps.length] is positive once [initFirebaseAdmin] has
    run on a fresh process. *)
Definition initFirebaseAdmin (sdk : Sdk) (e : Env) : bool :=
  match serviceAccount sdk e with
  | None => false
  | Some account =>
      if negb (JS.truthy account) then false else initializeApp sdk account
  end.

End Startup.

(** ** The two programs side by side *)

Inductive Program : Type := IndexJs | Part000.

Definition gate (p : Program) : Config → Oracles → Request → M Request :=
  match p with IndexJs => Legacy.gate | Part000 => RolesDoc.gate end.

Definition sign (p : Program) : Config → Oracles → Request → M Empty_set :=
  match p with IndexJs => Legacy.sign | Part000 => RolesDoc.sign end.

Definition cloudinary_delete (p : Program)
    : Config → Oracles → Request → M Empty_set :=
  match p with
  | IndexJs => Legacy.cloudinary_delete
  | Part000 => RolesDoc.cloudinary_delete
  end.

Definition post_sign (p : Program)
    : Config → Oracles → Request → M Empty_set :=
  match p with IndexJs => Legacy.post_sign | Part000 => RolesDoc.post_sign end.

Definition post_cloudinary_delete (p : Program)
    : Config → Oracles → Request → M Empty_set :=
  match p with
  | IndexJs => Legacy.post_cloudinary_delete
  | Part000 => RolesDoc.post_cloudinary_delete
  end.

(** ** A concrete deployment, for running the handlers *)

Module Demo.

Definition cfg : Config :=
  {| CLOUD_NAME := Some "demo"; API_KEY := Some "key";
     API_SECRET := Some "abc"; firebase_ready := true |}.

Definition dq : string := String (ascii_of_nat 34) "".

(** The text [{"result":"ok"}]. *)
Definition result_ok : string :=
  "{" +:+ dq +:+ "result" +:+ dq +:+ ":" +:+ dq +:+ "ok" +:+ dq +:+ "}".

(** Tokens [tok-<uid>] verify to the user [<uid>]; the clock stands at
    1000 seconds; the media service answers 200 with [result_ok], except for
    the public id [gone], which it answers with 404. *)
Definition orc : Oracles :=
  {| verifyIdToken := λ t,
       if String.prefix "tok-" t then inl {| uid := JS.slice 4 t |}
       else inr "Error: Decoding Firebase ID token failed";
     Date_now := 1000000;
     firestore_down := None;
     doc_path := λ v, match v with
                      | JS.Str s => inl s
                      | _ => inr "Error: documentPath is not a string"
                      end;
     serverTimestamp := JS.Num 1000000;
     uploader_destroy := λ _, inl (JS.Obj [("result", JS.Str "ok")]);
     fetch := λ _ form,
       if bool_decide (("public_id", "gone") ∈ form)
       then inl (404, "missing")
       else inl (200, result_ok);
     JSON_parse := λ t,
       if String.eqb t result_ok then Some (JS.Obj [("result", JS.Str "ok")])
       else None |}.

Definition store : gmap string (gmap string JS.value) :=
  {[ "alice" := {[ "role" := JS.Str "admin" ]};
     "bob" := {[ "role" := JS.Str "moderator" ]};
     "carol" := {[ "role" := JS.Str "user" ]} ]}.

Definition from (who : string) (b : JS.object) : Request :=
  incoming (Some ("Bearer tok-" +:+ who)) b.

End Demo.

(** ** Response shapes the properties speak about *)

Definition error_response (code : Z) (msg : string) : Response :=
  {| status := code; json := [("error", JS.Str msg)] |}.

(** The six fields of a signature result. *)
Definition signature_result (cfg : Config) (timestamp : Z)
    (signature : string) (folder public_id : JS.value) : JS.object :=
  [("cloudName", env (CLOUD_NAME cfg)); ("apiKey", env (API_KEY cfg));
   ("timestamp", JS.Num timestamp); ("signature", JS.Str signature);
   ("folder", folder); ("public_id", JS.coalesce public_id JS.Null)].

(** The body of a successful [/sign]: [part_000] adds its debug field. *)
Definition sign_body (p : Program) (cfg : Config) (timestamp : Z)
    (stringToSign : string) (folder public_id : JS.value) : JS.object :=
  (signature_result cfg timestamp
     (Signer.signature stringToSign (env_text (API_SECRET cfg)))
     folder public_id
   ++ match p with
      | IndexJs => []
      | Part000 => [("stringToSign", JS.Str stringToSign)]
      end)%list.

Definition logged (w : World) (evs : list Event) : World :=
  {| roles := roles w; log := (log w ++ evs)%list |}.

(** The destroy call of [part_000] for a public id and a second: what is
    hashed, where the form goes and what it carries. *)
Definition destroy_text (public_id : string) (timestamp : Z) : string :=
  "public_id=" +:+ public_id +:+ "&timestamp=" +:+ pretty timestamp.

Definition destroy_url (cfg : Config) : string :=
  "https://api.cloudinary.com/v1_1/" +:+ env_text (CLOUD_NAME cfg)
  +:+ "/image/destroy".

Definition destroy_form (cfg : Config) (public_id : string) (timestamp : Z)
    : list (string * string) :=
  [("api_key", env_text (API_KEY cfg));
   ("timestamp", pretty timestamp);
   ("public_id", public_id);
   ("signature",
    SHA1.hex (destroy_text public_id timestamp
              +:+ env_text (API_SECRET cfg)))].

(** A character of lowercase hexadecimal notation: [0-9a-f]. *)
Definition is_lower_hex (a : ascii) : bool :=
  let n := N_of_ascii a in
  ((48 <=? n) && (n <=? 57) || (97 <=? n) && (n <=? 102))%N.

(** A well-formed answer: a 200 without an [error] field, or one of the
    four error statuses with one. *)
Definition well_formed (r : Response) : bool :=
  (status r =? 200) && negb (JS.has (json r) "error")
  || ((status r =? 400) || (status r =? 401) || (status r =? 403)
      || (status r =? 500)) && JS.has (json r) "error".

Definition fetches (w : World) : list Event :=
  List.filter (λ ev, match ev with EvFetch _ _ => true | _ => false end)
              (log w).

Definition verifications (w : World) : list Event :=
  List.filter (λ ev, match ev with EvVerify _ => true | _ => false end)
              (log w).

(** A middleware outcome that is a refusal in good form, or a pass. *)
Definition refusal_or_pass {A} (o : Outcome A) : Prop :=
  match o with
  | Next _ => True
  | Sent r => well_formed r = true ∧ status r ≠ 200
  | Thrown _ => False
  end.

(** A handler outcome: an answer in good form. *)
Definition answered {A} (o : Outcome A) : Prop :=
  match o with
  | Sent r => well_formed r = true
  | _ => False
  end.

(** The events of the two gate middlewares. *)
Definition gate_event (ev : Event) : bool :=
  match ev with EvVerify _ | EvRoleGet _ => true | _ => false end.

(** * Properties *)

Example sha1_abc :
  SHA1.hex "abc" = "a9993e364706816aba3e25717850c26c9cd0d89d"%string.
Proof. vm_compute. reflexivity. Qed.

Example sha1_empty :
  SHA1.hex "" = "da39a3ee5e6b4b0d3255bfef95601890afd80709"%string.
Proof. vm_compute. reflexivity. Qed.

Example sha1_two_blocks :
  SHA1.hex "abcdbcdecdefdefgefghfghighijhijkijkljklmklmnlmnomnopnopq"
  = "84983e441c3bd26ebaae4aa1f95129e5e54670f1"%string.
Proof. vm_compute. reflexivity. Qed.

(** ** The Signer *)

Section SignerFacts.

Lemma get_member (o : JS.object) k v :
  NoDup (JS.keys o) → (k, v) ∈ o → JS.get o k = v.
Proof.
  induction o as [|[k' v'] o IH]; simpl; intros Hnd Hin.
  - by apply elem_of_nil in Hin.
  - apply NoDup_cons in Hnd as [Hfresh Hnd].
    apply elem_of_cons in Hin as [Heq|Hin].
    + inversion Heq; subst. by rewrite String.eqb_refl.
    + destruct (String.eqb_spec k' k) as [->|_]; [|by apply IH].
      exfalso. apply Hfresh. apply list_elem_of_fmap. by exists (k, v).
Qed.

Lemma get_absent (o : JS.object) k :
  k ∉ JS.keys o → JS.get o k = JS.Undefined.
Proof.
  induction o as [|[k' v'] o IH]; simpl; intros Hk; [done|].
  apply not_elem_of_cons in Hk as [Hne Hk].
  destruct (String.eqb_spec k' k) as [->|_]; [done|by apply IH].
Qed.

Lemma get_Permutation (o o' : JS.object) k :
  NoDup (JS.keys o) → o ≡ₚ o' → JS.get o k = JS.get o' k.
Proof.
  intros Hnd Hperm.
  assert (Hnd' : NoDup (JS.keys o')).
  { unfold JS.keys in *. by rewrite <- Hperm. }
  destruct (decide (k ∈ JS.keys o)) as [Hin|Hout].
  - apply list_elem_of_fmap in Hin as [[k0 v] [-> Hin]]. simpl.
    rewrite (get_member o k0 v Hnd Hin).
    symmetry. apply get_member; [done|]. by rewrite <- Hperm.
  - rewrite (get_absent o k Hout). symmetry. apply get_absent.
    unfold JS.keys in *. by rewrite <- Hperm.
Qed.

Lemma sorted_keys_Permutation (o o' : JS.object) :
  o ≡ₚ o' → Signer.sorted_keys o = Signer.sorted_keys o'.
Proof.
  intros Hperm. unfold Signer.sorted_keys.
  apply (Sorted_unique String.le); try apply Sorted_merge_sort; try apply _.
  rewrite !merge_sort_Permutation. unfold JS.keys. by rewrite Hperm.
Qed.

Lemma stringToSign_Permutation (o o' : JS.object) :
  NoDup (JS.keys o) → o ≡ₚ o' →
  Signer.stringToSign o = Signer.stringToSign o'.
Proof.
  intros Hnd Hperm. unfold Signer.stringToSign.
  rewrite (sorted_keys_Permutation o o' Hperm).
  f_equal. induction (Signer.sorted_keys o') as [|k ks IH]; [done|].
  simpl. rewrite IH. unfold Signer.pair.
  by rewrite (get_Permutation o o' k Hnd Hperm).
Qed.

End SignerFacts.

(** C2: the signature depends on the set of properties only.  Two parameter
    objects holding the same properties, entered in any order, sign to the
    same string under the same secret. *)
Theorem sign_insertion_order_independent (P P' : JS.object) (S : string) :
  NoDup (JS.keys P) → P ≡ₚ P' → Signer.sign P S = Signer.sign P' S.
Proof.
  intros Hnd Hperm. unfold Signer.sign.
  by rewrite (stringToSign_Permutation P P' Hnd Hperm).
Qed.

Lemma sign_insertion_order_independent_witness :
  Signer.sign [("b", JS.Num 2); ("a", JS.Num 1)] "S"
  = Signer.sign [("a", JS.Num 1); ("b", JS.Num 2)] "S".
Proof.
  apply sign_insertion_order_independent.
  - apply (bool_decide_unpack _). vm_compute. exact I.
  - apply perm_swap.
Defined.

Lemma append_assoc (a b c : string) : (a +:+ b) +:+ c = a +:+ b +:+ c.
Proof.
  induction a as [|x a IH]; [done|].
  change (String x ((a +:+ b) +:+ c) = String x (a +:+ b +:+ c)).
  by rewrite IH.
Qed.

Section SignParams.

Lemma sorted_keys_two (folder : JS.value) (ts : Z) :
  Signer.sorted_keys [("folder", folder); ("timestamp", JS.Num ts)]
  = ["folder"; "timestamp"]%string.
Proof. reflexivity. Qed.

Lemma sorted_keys_three (folder pid : JS.value) (ts : Z) :
  Signer.sorted_keys
    [("folder", folder); ("timestamp", JS.Num ts); ("public_id", pid)]
  = ["folder"; "public_id"; "timestamp"]%string.
Proof. reflexivity. Qed.

(** The string-to-sign of [/sign] in closed form. *)
Lemma stringToSign_sign_params (folder pid : JS.value) (ts : Z) :
  Signer.stringToSign (sign_params folder pid ts)
  = f ← JS.to_string folder;
    if JS.truthy pid then
      p ← JS.to_string pid;
      Some ("folder=" +:+ f +:+ "&public_id=" +:+ p
            +:+ "&timestamp=" +:+ pretty ts)
    else Some ("folder=" +:+ f +:+ "&timestamp=" +:+ pretty ts).
Proof.
  unfold sign_params, Signer.stringToSign.
  destruct (JS.truthy pid); simpl JS.set.
  - rewrite sorted_keys_three. unfold Signer.pair. simpl JS.get.
    simpl mapM. destruct (JS.to_string folder) as [f|]; [|done].
    destruct (JS.to_string pid) as [p|]; [|done].
    simpl. unfold JS.join. simpl. by rewrite !append_assoc.
  - rewrite sorted_keys_two. unfold Signer.pair. simpl JS.get.
    simpl mapM. destruct (JS.to_string folder) as [f|]; [|done].
    simpl. unfold JS.join. simpl. by rewrite !append_assoc.
Qed.

End SignParams.

(** ** Running the handlers *)

Ltac run :=
  cbv beta iota delta
    [try_catch mbind M_bind mret M_ret send throw emit of_option
     sha1_hex verify roles_get roles_set_merge];
  simpl.

Ltac split_match :=
  match goal with
  | |- context [match ?x with _ => _ end] => destruct x eqn:?
  | H : context [match ?x with _ => _ end] |- _ => destruct x eqn:?
  end.

Ltac crunch := repeat (split_match; simpl in *; simplify_eq; try done).

Lemma get_no_property (o : JS.object) k :
  JS.has o k = false → JS.get o k = JS.Undefined.
Proof.
  induction o as [|[k' v] o IH]; simpl; [done|].
  destruct (String.eqb k' k); simpl; [done|exact IH].
Qed.

Section Gates.
Context (cfg : Config) (orc : Oracles).

(** What a request that got through [requireAuth] and the role check of
    [part_000] looks like, and what the two middlewares did. *)
Lemma RolesDoc_gate_Next req w req' w' :
  RolesDoc.gate cfg orc req w = (Next req', w') →
  ∃ tok d r,
    bearer (default "" (authorization req)) = Some tok
    ∧ verifyIdToken orc tok = inl d
    ∧ RolesDoc.resolved_role (roles w !! uid d) = Some r
    ∧ (r = "admin" ∨ r = "moderator")%string
    ∧ req' = {| authorization := authorization req; body := body req;
                user := Some d; role := JS.Str r |}
    ∧ w' = {| roles := roles w;
              log := log w ++ [EvVerify tok; EvRoleGet (uid d)] |}.
Proof.
  unfold RolesDoc.gate, RolesDoc.requireAuth,
    RolesDoc.requireAdminOrModeratorByRolesDoc. run.
  intros H. crunch.
  match goal with
  | Hv : verifyIdToken orc ?t = inl ?d,
    Hr : RolesDoc.resolved_role _ = Some ?r |- _ =>
      exists t, d, r; simpl in Hr
  end.
  repeat split; try done.
  - match goal with
    | H : negb (String.eqb ?r _) && _ = false |- _ =>
        destruct (String.eqb_spec r "admin");
        destruct (String.eqb_spec r "moderator"); simpl in H; auto; done
    end.
  - simpl. by rewrite <- app_assoc.
Qed.

Lemma Legacy_gate_Next req w req' w' :
  Legacy.gate cfg orc req w = (Next req', w') →
  env_ok cfg = true ∧ firebase_ready cfg = true
  ∧ ∃ tok d,
    bearer (default "" (authorization req)) = Some tok
    ∧ verifyIdToken orc tok = inl d
    ∧ JS.is_str (Legacy.resolved_role (roles w !! uid d)) "admin" = true
    ∧ req' = {| authorization := authorization req; body := body req;
                user := Some d; role := role req |}
    ∧ w' = {| roles := roles w;
              log := log w ++ [EvVerify tok; EvRoleGet (uid d)] |}.
Proof.
  unfold Legacy.gate, Legacy.requireAuth, Legacy.requireAdmin,
    Legacy.mustHaveEnv. run.
  intros H. crunch.
  repeat split; try by apply negb_false_iff.
  match goal with
  | Hv : verifyIdToken orc ?t = inl ?d |- _ => exists t, d
  end.
  repeat split; try done.
  - by apply negb_false_iff.
  - simpl. by rewrite <- app_assoc.
Qed.

End Gates.

Section Handlers.
Context (cfg : Config) (orc : Oracles).

(** [/sign] behind the gate, case by case. *)
Lemma sign_run (p : Program) req w :
  sign p cfg orc req w =
  let folder := JS.get (body req) "folder" in
  let public_id := JS.get (body req) "public_id" in
  let ts := unix_seconds orc in
  let configured :=
    match p with
    | IndexJs => env_ok cfg && firebase_ready cfg
    | Part000 => env_ok cfg
    end in
  let misconfigured :=
    match p with
    | IndexJs =>
        if env_ok cfg then "Error: Firebase Admin not initialized"
        else "Error: Cloudinary env vars not set"
    | Part000 => "Cloudinary env vars not set"
    end%string in
  match p, configured, JS.truthy folder with
  | IndexJs, false, _ => (Sent (error_response 500 misconfigured), w)
  | _, _, false => (Sent (error_response 400 "folder required"), w)
  | Part000, false, true => (Sent (error_response 500 misconfigured), w)
  | _, true, true =>
      match Signer.stringToSign (sign_params folder public_id ts) with
      | None => (Sent (error_response 500 not_primitive), w)
      | Some s =>
          (Sent {| status := 200;
                   json := sign_body p cfg ts s folder public_id |},
           logged w [EvHash (s +:+ env_text (API_SECRET cfg))])
      end
  end.
Proof.
  destruct p; unfold sign, Legacy.sign, RolesDoc.sign, Legacy.mustHaveEnv;
    run; destruct (env_ok cfg), (firebase_ready cfg),
           (JS.truthy (JS.get (body req) "folder")); simpl; try done;
    by destruct (Signer.stringToSign _).
Qed.

End Handlers.

Section Routes.
Context (cfg : Config) (orc : Oracles).

Lemma gate_Next (p : Program) req w req' w' :
  gate p cfg orc req w = (Next req', w') →
  body req' = body req
  ∧ (p = IndexJs → env_ok cfg = true ∧ firebase_ready cfg = true)
  ∧ ∃ tok d, user req' = Some d
             ∧ w' = logged w [EvVerify tok; EvRoleGet (uid d)].
Proof.
  destruct p; simpl; intros H.
  - apply Legacy_gate_Next in H
      as (Henv & Hfb & tok & d & _ & _ & _ & -> & ->).
    repeat split; eauto.
  - apply RolesDoc_gate_Next in H as (tok & d & r & _ & _ & _ & _ & -> & ->).
    repeat split; try done. eauto.
Qed.

Lemma post_sign_Next (p : Program) req w req' w' :
  gate p cfg orc req w = (Next req', w') →
  post_sign p cfg orc req w = sign p cfg orc req' w'.
Proof.
  destruct p; simpl; intros H;
    unfold Legacy.post_sign, RolesDoc.post_sign;
    cbv beta delta [mbind M_bind]; by rewrite H.
Qed.

Lemma post_sign_Sent (p : Program) req w r w' :
  gate p cfg orc req w = (Sent r, w') →
  post_sign p cfg orc req w = (Sent r, w').
Proof.
  destruct p; simpl; intros H;
    unfold Legacy.post_sign, RolesDoc.post_sign;
    cbv beta delta [mbind M_bind]; by rewrite H.
Qed.

Lemma post_cloudinary_delete_Next (p : Program) req w req' w' :
  gate p cfg orc req w = (Next req', w') →
  post_cloudinary_delete p cfg orc req w
  = cloudinary_delete p cfg orc req' w'.
Proof.
  destruct p; simpl; intros H;
    unfold Legacy.post_cloudinary_delete, RolesDoc.post_cloudinary_delete;
    cbv beta delta [mbind M_bind]; by rewrite H.
Qed.

Lemma post_cloudinary_delete_Sent (p : Program) req w r w' :
  gate p cfg orc req w = (Sent r, w') →
  post_cloudinary_delete p cfg orc req w = (Sent r, w').
Proof.
  destruct p; simpl; intros H;
    unfold Legacy.post_cloudinary_delete, RolesDoc.post_cloudinary_delete;
    cbv beta delta [mbind M_bind]; by rewrite H.
Qed.

Lemma hashes_logged_gate w tok id :
  hashes (logged w [EvVerify tok; EvRoleGet id]) = hashes w.
Proof.
  unfold hashes, logged. simpl. rewrite omap_app. simpl.
  by rewrite app_nil_r.
Qed.

End Routes.

(** C3: a [/sign] request that reached the handler with [folder] missing or
    empty is answered 400 "folder required", and no digest is computed while
    the request is served. *)
Theorem sign_rejects_missing_folder (p : Program) (cfg : Config)
    (orc : Oracles) (req req' : Request) (w w' : World) :
  JS.has (body req) "folder" = false
  ∨ JS.get (body req) "folder" = JS.Str "" →
  gate p cfg orc req w = (Next req', w') →
  post_sign p cfg orc req w
  = (Sent (error_response 400 "folder required"), w')
  ∧ sign p cfg orc req' w'
    = (Sent (error_response 400 "folder required"), w')
  ∧ hashes w' = hashes w.
Proof.
  intros Hfolder Hgate.
  rewrite (post_sign_Next cfg orc p req w req' w' Hgate).
  destruct (gate_Next cfg orc p req w req' w' Hgate)
    as (Hbody & Henv & tok & d & _ & ->).
  assert (Hfalsy : JS.truthy (JS.get (body req') "folder") = false).
  { rewrite Hbody. destruct Hfolder as [H|H].
    - by rewrite (get_no_property _ _ H).
    - by rewrite H. }
  rewrite sign_run. simpl. rewrite Hfalsy.
  rewrite hashes_logged_gate.
  destruct p.
  - destruct (Henv eq_refl) as [-> ->]. done.
  - by destruct (env_ok cfg).
Qed.

Lemma sign_rejects_missing_folder_witness :
  post_sign IndexJs Demo.cfg Demo.orc (Demo.from "alice" []) (start Demo.store)
  = (Sent (error_response 400 "folder required"),
     logged (start Demo.store) [EvVerify "tok-alice"; EvRoleGet "alice"])
  ∧ post_sign Part000 Demo.cfg Demo.orc
      (Demo.from "bob" [("folder", JS.Str ""); ("public_id", JS.Str "p1")])
      (start Demo.store)
    = (Sent (error_response 400 "folder required"),
       logged (start Demo.store) [EvVerify "tok-bob"; EvRoleGet "bob"]).
Proof.
  split.
  - eapply (sign_rejects_missing_folder IndexJs Demo.cfg Demo.orc
              (Demo.from "alice" []) _ (start Demo.store)).
    + left. reflexivity.
    + vm_compute. reflexivity.
  - eapply (sign_rejects_missing_folder Part000 Demo.cfg Demo.orc
              (Demo.from "bob" [("folder", JS.Str "");
                                ("public_id", JS.Str "p1")])
              _ (start Demo.store)).
    + right. reflexivity.
    + vm_compute. reflexivity.
Defined.

(** ** The digest is forty lowercase hexadecimal digits *)

Lemma hex_digit_lower (n : Z) :
  0 ≤ n < 16 → is_lower_hex (SHA1.hex_digit n) = true.
Proof.
  intros Hn.
  assert (n = 0 ∨ n = 1 ∨ n = 2 ∨ n = 3 ∨ n = 4 ∨ n = 5 ∨ n = 6 ∨ n = 7
          ∨ n = 8 ∨ n = 9 ∨ n = 10 ∨ n = 11 ∨ n = 12 ∨ n = 13 ∨ n = 14
          ∨ n = 15) as Hcases by lia.
  repeat (destruct Hcases as [->|Hcases]; [reflexivity|]).
  by subst.
Qed.

Lemma nibble_range (x : Z) : 0 ≤ Z.land x 0xF < 16.
Proof.
  change 0xF with (Z.ones 4). rewrite Z.land_ones by lia.
  apply Z.mod_pos_bound. lia.
Qed.

Lemma hex_word_lower (x : Z) : Forall (λ a, is_lower_hex a = true) (SHA1.hex_word x).
Proof.
  unfold SHA1.hex_word. apply Forall_fmap, Forall_forall.
  intros i _. apply hex_digit_lower, nibble_range.
Qed.

Lemma sha1_hex_shape (s : string) :
  String.length (SHA1.hex s) = 40%nat
  ∧ Forall (λ a, is_lower_hex a = true) (list_ascii_of_string (SHA1.hex s)).
Proof.
  unfold SHA1.hex, SHA1.digest_words.
  set (h := fold_left _ _ _). split.
  - cbv [map concat SHA1.hex_word app string_of_list_ascii String.length].
    reflexivity.
  - rewrite list_ascii_of_string_of_list_ascii.
    apply Forall_concat, Forall_fmap, Forall_forall.
    intros x _. apply hex_word_lower.
Qed.

(** C1: the worked example.  The parameters [{folder: "x", timestamp: 1000}]
    give the string-to-sign [folder=x&timestamp=1000]; with the secret [abc]
    the signature is the SHA-1 of [folder=x&timestamp=1000abc], forty
    lowercase hexadecimal digits; and this is what both [/sign] handlers
    answer for the folder [x] at second 1000. *)
Theorem sign_end_to_end_example :
  let P := [("folder", JS.Str "x"); ("timestamp", JS.Num 1000)] in
  let digest := "8f26f01bc9f73309897e8dda5076f85507bf03ea"%string in
  Signer.sorted_keys P = ["folder"; "timestamp"]%string
  ∧ Signer.stringToSign P = Some "folder=x&timestamp=1000"%string
  ∧ Signer.sign P "abc" = Some (SHA1.hex "folder=x&timestamp=1000abc")
  ∧ SHA1.hex "folder=x&timestamp=1000abc" = digest
  ∧ String.length digest = 40%nat
  ∧ forallb is_lower_hex (list_ascii_of_string digest) = true
  ∧ ∀ p : Program,
      sign p Demo.cfg Demo.orc (incoming None [("folder", JS.Str "x")])
        (start ∅)
      = (Sent {| status := 200;
                 json := sign_body p Demo.cfg 1000 "folder=x&timestamp=1000"
                           (JS.Str "x") JS.Undefined |},
         logged (start ∅) [EvHash "folder=x&timestamp=1000abc"])
      ∧ JS.get (sign_body p Demo.cfg 1000 "folder=x&timestamp=1000"
                  (JS.Str "x") JS.Undefined) "signature"
        = JS.Str digest.
Proof.
  intros P digest.
  split; [vm_compute; reflexivity|].
  split; [vm_compute; reflexivity|].
  split; [vm_compute; reflexivity|].
  split; [vm_compute; reflexivity|].
  split; [vm_compute; reflexivity|].
  split; [vm_compute; reflexivity|].
  intros p. split; destruct p; vm_compute; reflexivity.
Qed.

(** C10: values go into the string-to-sign as they are.  A folder that
    carries [&public_id=y] and a folder [x] next to the public id [y] are
    different parameter objects with one string-to-sign, hence one signature
    under every secret; [/sign] builds exactly these two objects from the
    bodies [{folder: "x&public_id=y"}] and [{folder: "x", public_id: "y"}]. *)
Theorem unescaped_values_collide (t : Z) :
  let P := [("folder", JS.Str "x&public_id=y"); ("timestamp", JS.Num t)] in
  let P' := [("folder", JS.Str "x"); ("public_id", JS.Str "y");
             ("timestamp", JS.Num t)] in
  P ≠ P'
  ∧ JS.get P "public_id" ≠ JS.get P' "public_id"
  ∧ Signer.stringToSign P
    = Some ("folder=x&public_id=y&timestamp=" +:+ pretty t)
  ∧ Signer.stringToSign P'
    = Some ("folder=x&public_id=y&timestamp=" +:+ pretty t)
  ∧ (∀ S : string, Signer.sign P S = Signer.sign P' S)
  ∧ sign_params (JS.Str "x&public_id=y") JS.Undefined t = P
  ∧ sign_params (JS.Str "x") (JS.Str "y") t ≡ₚ P'.
Proof.
  intros P P'.
  assert (HP : Signer.stringToSign P
               = Some ("folder=x&public_id=y&timestamp=" +:+ pretty t)).
  { change P with (sign_params (JS.Str "x&public_id=y") JS.Undefined t).
    by rewrite stringToSign_sign_params. }
  assert (HP' : Signer.stringToSign P'
                = Some ("folder=x&public_id=y&timestamp=" +:+ pretty t)).
  { rewrite <- (stringToSign_Permutation
                  (sign_params (JS.Str "x") (JS.Str "y") t) P').
    - by rewrite stringToSign_sign_params.
    - apply (bool_decide_unpack _). by vm_compute.
    - apply perm_skip, perm_swap. }
  split; [discriminate|]. split; [discriminate|].
  split; [exact HP|]. split; [exact HP'|].
  split; [|split; [reflexivity|apply perm_skip, perm_swap]].
  intros S. unfold Signer.sign. by rewrite HP, HP'.
Qed.

(** ** What [/sign] signs and answers *)

Section SignSuccess.
Context (cfg : Config) (orc : Oracles).

(** A 200 from [/sign], taken apart. *)
Lemma sign_200 (p : Program) req w r w' :
  sign p cfg orc req w = (Sent r, w') → status r = 200 →
  let folder := JS.get (body req) "folder" in
  let public_id := JS.get (body req) "public_id" in
  JS.truthy folder = true ∧ env_ok cfg = true
  ∧ ∃ s, Signer.stringToSign
           (sign_params folder public_id (unix_seconds orc)) = Some s
         ∧ json r = sign_body p cfg (unix_seconds orc) s folder public_id
         ∧ w' = logged w [EvHash (s +:+ env_text (API_SECRET cfg))].
Proof.
  rewrite sign_run. cbv zeta.
  destruct p, (env_ok cfg), (firebase_ready cfg),
    (JS.truthy (JS.get (body req) "folder")); cbn [andb];
    try (intros [= <- <-]; cbn; discriminate);
    (destruct (Signer.stringToSign _) as [s|];
     [|intros [= <- <-]; cbn; discriminate]);
    intros [= <- <-] _; (split; [done|]); (split; [done|]);
    by exists s.
Qed.

Lemma sign_params_keys (folder public_id : JS.value) (ts : Z) :
  JS.keys (sign_params folder public_id ts)
  = (["folder"; "timestamp"]
     ++ if JS.truthy public_id then ["public_id"] else [])%list%string.
Proof. unfold sign_params. by destruct (JS.truthy public_id). Qed.

Lemma sign_params_get (folder public_id : JS.value) (ts : Z) :
  JS.get (sign_params folder public_id ts) "folder" = folder
  ∧ JS.get (sign_params folder public_id ts) "timestamp" = JS.Num ts
  ∧ JS.get (sign_params folder public_id ts) "public_id"
    = if JS.truthy public_id then public_id else JS.Undefined.
Proof. unfold sign_params. by destruct (JS.truthy public_id). Qed.

(** The handler reads two properties of the body and nothing else. *)
Lemma sign_reads_two_properties (p : Program) req1 req2 w :
  JS.get (body req1) "folder" = JS.get (body req2) "folder" →
  JS.get (body req1) "public_id" = JS.get (body req2) "public_id" →
  sign p cfg orc req1 w = sign p cfg orc req2 w.
Proof. intros Hf Hp. rewrite !sign_run. cbv zeta. by rewrite Hf, Hp. Qed.

End SignSuccess.

(** C4 as stated fails: the body [{folder: "x", public_id: ""}] supplies a
    public id, the request succeeds, and the signed object has the two keys
    [folder] and [timestamp] only. *)
Lemma public_id_supplied_but_unsigned :
  let b := [("folder", JS.Str "x"); ("public_id", JS.Str "")] in
  let params := sign_params (JS.get b "folder") (JS.get b "public_id") 1000 in
  JS.has b "public_id" = true
  ∧ JS.has params "public_id" = false
  ∧ JS.keys params = ["folder"; "timestamp"]%string
  ∧ ∀ p : Program,
      sign p Demo.cfg Demo.orc (incoming None b) (start ∅)
      = (Sent {| status := 200;
                 json := sign_body p Demo.cfg 1000 "folder=x&timestamp=1000"
                           (JS.Str "x") (JS.Str "") |},
         logged (start ∅) [EvHash "folder=x&timestamp=1000abc"]).
Proof.
  intros b params.
  split; [reflexivity|]. split; [reflexivity|]. split; [reflexivity|].
  intros p. destruct p; vm_compute; reflexivity.
Qed.

(** C4, amended: a successful [/sign] signs the object made of the body's
    [folder], the server's clock reading in whole seconds, and the body's
    [public_id] when that value is truthy (for a string: not empty); the
    digest is taken over that object's string-to-sign followed by the
    secret.  No other property of the body is read: two bodies with the same
    [folder] and [public_id] get the same answer, whatever [timestamp] they
    carry. *)
Theorem sign_signs_declared_parameters (p : Program) (cfg : Config)
    (orc : Oracles) (req : Request) (w w' : World) (r : Response) :
  sign p cfg orc req w = (Sent r, w') → status r = 200 →
  let folder := JS.get (body req) "folder" in
  let public_id := JS.get (body req) "public_id" in
  let ts := Date_now orc / 1000 in
  let params := sign_params folder public_id ts in
  JS.keys params
  = (["folder"; "timestamp"]
     ++ if JS.truthy public_id then ["public_id"] else [])%list%string
  ∧ JS.get params "folder" = folder
  ∧ JS.get params "timestamp" = JS.Num ts
  ∧ JS.get params "public_id"
    = (if JS.truthy public_id then public_id else JS.Undefined)
  ∧ (∃ s, Signer.stringToSign params = Some s
          ∧ JS.get (json r) "signature"
            = JS.Str (SHA1.hex (s +:+ env_text (API_SECRET cfg)))
          ∧ JS.get (json r) "timestamp" = JS.Num ts
          ∧ w' = logged w [EvHash (s +:+ env_text (API_SECRET cfg))])
  ∧ ∀ req2 : Request,
      JS.get (body req2) "folder" = folder →
      JS.get (body req2) "public_id" = public_id →
      sign p cfg orc req2 w = (Sent r, w').
Proof.
  intros Hrun H200 folder public_id ts params.
  destruct (sign_200 cfg orc p req w r w' Hrun H200)
    as (_ & _ & s & Hs & Hjson & Hw).
  split; [apply sign_params_keys|].
  destruct (sign_params_get folder public_id ts) as (Hf & Ht & Hp).
  split; [exact Hf|]. split; [exact Ht|]. split; [exact Hp|].
  split.
  - exists s. split; [exact Hs|]. rewrite Hjson.
    split; [|split; [|exact Hw]]; by destruct p.
  - intros req2 Hf2 Hp2. rewrite <- Hrun.
    by apply sign_reads_two_properties.
Qed.

Lemma sign_signs_declared_parameters_witness :
  let mine := [("folder", JS.Str "x"); ("public_id", JS.Str "p1");
               ("timestamp", JS.Num 1)] in
  let plain := [("folder", JS.Str "x"); ("public_id", JS.Str "p1")] in
  let answer :=
    {| status := 200;
       json := sign_body Part000 Demo.cfg 1000
                 "folder=x&public_id=p1&timestamp=1000"
                 (JS.Str "x") (JS.Str "p1") |} in
  let after :=
    logged (start ∅) [EvHash "folder=x&public_id=p1&timestamp=1000abc"] in
  sign Part000 Demo.cfg Demo.orc (incoming None mine) (start ∅)
  = (Sent answer, after)
  ∧ sign Part000 Demo.cfg Demo.orc (incoming None plain) (start ∅)
    = (Sent answer, after).
Proof.
  intros mine plain answer after.
  assert (Hrun : sign Part000 Demo.cfg Demo.orc (incoming None mine) (start ∅)
                 = (Sent answer, after)) by (vm_compute; reflexivity).
  split; [exact Hrun|].
  destruct (sign_signs_declared_parameters Part000 Demo.cfg Demo.orc
              (incoming None mine) (start ∅) after answer Hrun eq_refl)
    as (_ & _ & _ & _ & _ & Hsame).
  exact (Hsame (incoming None plain) eq_refl eq_refl).
Defined.

(** C5 as stated fails in [part_000]: its 200 body has a seventh field. *)
Lemma part000_answers_seven_fields :
  let six := ["cloudName"; "apiKey"; "timestamp"; "signature"; "folder";
              "public_id"]%string in
  let answer :=
    {| status := 200;
       json := [("cloudName", JS.Str "demo"); ("apiKey", JS.Str "key");
                ("timestamp", JS.Num 1000);
                ("signature",
                 JS.Str "8f26f01bc9f73309897e8dda5076f85507bf03ea");
                ("folder", JS.Str "x"); ("public_id", JS.Null);
                ("stringToSign", JS.Str "folder=x&timestamp=1000")] |} in
  RolesDoc.sign Demo.cfg Demo.orc (incoming None [("folder", JS.Str "x")])
    (start ∅)
  = (Sent answer, logged (start ∅) [EvHash "folder=x&timestamp=1000abc"])
  ∧ JS.keys (json answer) ≠ six
  ∧ JS.wire_keys (json answer) = (six ++ ["stringToSign"])%list%string.
Proof.
  intros six answer.
  split; [vm_compute; reflexivity|].
  split; [discriminate|reflexivity].
Qed.

Section SignAnswer.
Context (cfg : Config) (orc : Oracles).

Lemma env_defined (v : option string) :
  JS.truthy (env v) = true → JS.is_undefined (env v) = false.
Proof. by destruct v. Qed.

Lemma truthy_defined (v : JS.value) :
  JS.truthy v = true → JS.is_undefined v = false.
Proof. by destruct v. Qed.

Lemma coalesce_defined (v : JS.value) :
  JS.is_undefined (JS.coalesce v JS.Null) = false.
Proof. by destruct v. Qed.

Lemma env_ok_inv :
  env_ok cfg = true →
  JS.truthy (env (CLOUD_NAME cfg)) = true
  ∧ JS.truthy (env (API_KEY cfg)) = true
  ∧ JS.truthy (env (API_SECRET cfg)) = true.
Proof.
  unfold env_ok. rewrite !andb_true_iff. tauto.
Qed.

End SignAnswer.

(** C5, amended: the body of a 200 from [/sign] holds [cloudName], [apiKey],
    [timestamp], [signature], [folder] and [public_id], in [index.js] these
    six and nothing else, in [part_000] followed by the debug field
    [stringToSign].  None of them is [undefined], so all reach the wire; and
    [public_id] is [null] when the body had none. *)
Theorem sign_answer_shape (p : Program) (cfg : Config) (orc : Oracles)
    (req : Request) (w w' : World) (r : Response) :
  sign p cfg orc req w = (Sent r, w') → status r = 200 →
  let six := ["cloudName"; "apiKey"; "timestamp"; "signature"; "folder";
              "public_id"]%string in
  let extra := match p with
               | IndexJs => []
               | Part000 => ["stringToSign"]%string
               end in
  JS.keys (json r) = (six ++ extra)%list
  ∧ JS.wire_keys (json r) = (six ++ extra)%list
  ∧ JS.get (json r) "cloudName" = env (CLOUD_NAME cfg)
  ∧ JS.get (json r) "apiKey" = env (API_KEY cfg)
  ∧ JS.get (json r) "timestamp" = JS.Num (Date_now orc / 1000)
  ∧ JS.get (json r) "folder" = JS.get (body req) "folder"
  ∧ JS.get (json r) "public_id"
    = JS.coalesce (JS.get (body req) "public_id") JS.Null
  ∧ JS.get (json r) "public_id" ≠ JS.Undefined
  ∧ (JS.get (body req) "public_id" = JS.Undefined →
     JS.get (json r) "public_id" = JS.Null).
Proof.
  intros Hrun H200 six extra.
  destruct (sign_200 cfg orc p req w r w' Hrun H200)
    as (Hfolder & Henv & s & _ & -> & _).
  destruct (env_ok_inv cfg Henv) as (Hc & Hk & _).
  split; [by destruct p|].
  split.
  { unfold JS.wire_keys, sign_body, signature_result.
    rewrite List.filter_app. cbn [List.filter snd].
    rewrite (env_defined _ Hc), (env_defined _ Hk),
      (truthy_defined _ Hfolder), coalesce_defined.
    by destruct p. }
  repeat (split; [by destruct p|]).
  split.
  - destruct p; cbn; by destruct (JS.get (body req) "public_id").
  - intros Hnone. destruct p; cbn; by rewrite Hnone.
Qed.

Lemma sign_answer_shape_witness :
  let answer (p : Program) :=
    {| status := 200;
       json := sign_body p Demo.cfg 1000 "folder=x&timestamp=1000"
                 (JS.Str "x") JS.Undefined |} in
  JS.keys (json (answer IndexJs))
  = ["cloudName"; "apiKey"; "timestamp"; "signature"; "folder";
     "public_id"]%string
  ∧ JS.get (json (answer IndexJs)) "public_id" = JS.Null
  ∧ JS.keys (json (answer Part000))
    = ["cloudName"; "apiKey"; "timestamp"; "signature"; "folder";
       "public_id"; "stringToSign"]%string
  ∧ JS.get (json (answer Part000)) "public_id" = JS.Null.
Proof.
  intros answer.
  assert (Hrun : ∀ p, sign p Demo.cfg Demo.orc
                        (incoming None [("folder", JS.Str "x")]) (start ∅)
                      = (Sent (answer p),
                         logged (start ∅)
                           [EvHash "folder=x&timestamp=1000abc"]))
    by (intros p; destruct p; vm_compute; reflexivity).
  destruct (sign_answer_shape IndexJs Demo.cfg Demo.orc _ _ _ _
              (Hrun IndexJs) eq_refl)
    as (Hkeys1 & _ & _ & _ & _ & _ & _ & _ & Hnull1).
  destruct (sign_answer_shape Part000 Demo.cfg Demo.orc _ _ _ _
              (Hrun Part000) eq_refl)
    as (Hkeys2 & _ & _ & _ & _ & _ & _ & _ & Hnull2).
  split; [exact Hkeys1|]. split; [exact (Hnull1 eq_refl)|].
  split; [exact Hkeys2|exact (Hnull2 eq_refl)].
Defined.

(** ** The delete handlers *)

Section Delete.
Context (cfg : Config) (orc : Oracles).

Lemma RolesDoc_delete_run req w :
  RolesDoc.cloudinary_delete cfg orc req w =
  let public_id := JS.get (body req) "public_id" in
  let ts := unix_seconds orc in
  if negb (JS.truthy public_id) then
    (Sent (error_response 400 "public_id required"), w)
  else if negb (env_ok cfg) then
    (Sent (error_response 500 "Cloudinary env vars not set"), w)
  else
    match JS.to_string public_id with
    | None => (Sent (error_response 500 not_primitive), w)
    | Some p =>
        let w' := logged w [EvHash (destroy_text p ts
                                    +:+ env_text (API_SECRET cfg));
                            EvFetch (destroy_url cfg)
                              (destroy_form cfg p ts)] in
        match fetch orc (destroy_url cfg) (destroy_form cfg p ts) with
        | inr e => (Sent (error_response 500 e), w')
        | inl (code, text) =>
            if RolesDoc.resp_ok code then
              (Sent {| status := 200;
                       json := [("ok", JS.Bool true);
                                ("cloudinary",
                                 RolesDoc.json_or_text orc text)] |}, w')
            else
              (Sent {| status := 500;
                       json := [("error",
                                 JS.Str "Cloudinary destroy failed");
                                ("status", JS.Num code);
                                ("body",
                                 RolesDoc.json_or_text orc text)] |}, w')
        end
    end.
Proof.
  unfold RolesDoc.cloudinary_delete, RolesDoc.destroy_stringToSign. run.
  destruct (JS.truthy (JS.get (body req) "public_id")); [|done].
  destruct (env_ok cfg); [|done]. simpl.
  destruct (JS.to_string (JS.get (body req) "public_id")) as [p|]; [|done].
  simpl. unfold logged, destroy_url, destroy_form, destroy_text. simpl.
  rewrite <- !app_assoc. simpl.
  destruct (fetch orc _ _) as [[code text]|e]; [|done].
  by destruct (RolesDoc.resp_ok code).
Qed.

Lemma Legacy_delete_run req w :
  Legacy.cloudinary_delete cfg orc req w =
  let public_id := JS.get (body req) "public_id" in
  if negb (env_ok cfg) then
    (Sent {| status := 500;
             json := [("error", JS.Str "Cloudinary delete failed");
                      ("details",
                       JS.Str "Error: Cloudinary env vars not set")] |}, w)
  else if negb (firebase_ready cfg) then
    (Sent {| status := 500;
             json := [("error", JS.Str "Cloudinary delete failed");
                      ("details",
                       JS.Str "Error: Firebase Admin not initialized")] |},
     w)
  else if negb (JS.truthy public_id) then
    (Sent (error_response 400 "public_id required"), w)
  else
    match uploader_destroy orc public_id with
    | inl result =>
        (Sent {| status := 200;
                 json := [("ok", JS.Bool true); ("public_id", public_id);
                          ("result", result)] |},
         logged w [EvDestroy public_id])
    | inr e =>
        (Sent {| status := 500;
                 json := [("error", JS.Str "Cloudinary delete failed");
                          ("details", JS.Str e)] |},
         logged w [EvDestroy public_id])
    end.
Proof.
  unfold Legacy.cloudinary_delete, Legacy.mustHaveEnv, Legacy.destroy. run.
  destruct (env_ok cfg); [|done]. destruct (firebase_ready cfg); [|done].
  simpl.
  destruct (JS.truthy (JS.get (body req) "public_id")); [|done]. simpl.
  by destruct (uploader_destroy orc _).
Qed.

Lemma hashes_logged w evs :
  hashes (logged w evs)
  = (hashes w
     ++ omap (λ ev, match ev with EvHash i => Some i | _ => None end)
          evs)%list.
Proof. unfold hashes, logged. simpl. by rewrite omap_app. Qed.

End Delete.

(** C6: when [/cloudinary/delete] of [part_000] has a public id to work on,
    the text it hashes is [public_id=<public_id>&timestamp=<ts>] followed by
    the secret.  That text is the Signer's string-to-sign of the two-key
    object [{public_id, timestamp}], which has no [folder]; no parameter
    object of [/sign] has this string-to-sign. *)
Theorem delete_signs_public_id_and_timestamp (cfg : Config) (orc : Oracles)
    (req : Request) (w : World) (p : string) :
  JS.truthy (JS.get (body req) "public_id") = true →
  JS.to_string (JS.get (body req) "public_id") = Some p →
  env_ok cfg = true →
  let public_id := JS.get (body req) "public_id" in
  let ts := Date_now orc / 1000 in
  let text := "public_id=" +:+ p +:+ "&timestamp=" +:+ pretty ts in
  let two := [("public_id", public_id); ("timestamp", JS.Num ts)] in
  RolesDoc.destroy_stringToSign public_id ts = Some text
  ∧ hashes (RolesDoc.cloudinary_delete cfg orc req w).2
    = (hashes w ++ [text +:+ env_text (API_SECRET cfg)])%list
  ∧ Signer.stringToSign two = Some text
  ∧ JS.keys two = ["public_id"; "timestamp"]%string
  ∧ JS.has two "folder" = false
  ∧ ∀ folder public_id' ts',
      Signer.stringToSign (sign_params folder public_id' ts') ≠ Some text.
Proof.
  intros Hpid Hp Henv public_id ts text two. subst public_id.
  split.
  { unfold RolesDoc.destroy_stringToSign. by rewrite Hp. }
  split.
  { rewrite RolesDoc_delete_run. cbv zeta. rewrite Hpid, Henv, Hp. cbn [negb].
    destruct (fetch orc _ _) as [[code text']|e];
      [destruct (RolesDoc.resp_ok code)|]; cbn [snd];
      by rewrite hashes_logged. }
  split.
  { unfold Signer.stringToSign.
    change (Signer.sorted_keys two) with ["public_id"; "timestamp"]%string.
    unfold Signer.pair. cbn [mapM].
    change (JS.get two "public_id") with (JS.get (body req) "public_id").
    change (JS.get two "timestamp") with (JS.Num ts).
    rewrite Hp. cbn.
    unfold JS.join, text. cbn. by rewrite !append_assoc. }
  split; [reflexivity|]. split; [reflexivity|].
  intros folder public_id' ts'. rewrite stringToSign_sign_params.
  destruct (JS.to_string folder) as [f|]; [|discriminate].
  cbn. destruct (JS.truthy public_id');
    [destruct (JS.to_string public_id') as [q|]; [|discriminate]|];
    cbn; unfold text; intros [= Habs]; discriminate Habs.
Qed.

Lemma delete_signs_public_id_and_timestamp_witness :
  hashes (RolesDoc.cloudinary_delete Demo.cfg Demo.orc
            (incoming None [("public_id", JS.Str "p1")]) (start ∅)).2
  = ["public_id=p1&timestamp=1000abc"]%string.
Proof.
  refine (proj1 (proj2
    (delete_signs_public_id_and_timestamp Demo.cfg Demo.orc
       (incoming None [("public_id", JS.Str "p1")]) (start ∅) "p1"
       _ _ _))); reflexivity.
Defined.

(** C7 as stated fails in [part_000]: its 200 body is [{ok, cloudinary}],
    with neither a [public_id] nor a [result] key. *)
Lemma part000_delete_answers_ok_and_cloudinary :
  let req := incoming None [("public_id", JS.Str "p1")] in
  let answer :=
    {| status := 200;
       json := [("ok", JS.Bool true);
                ("cloudinary", JS.Obj [("result", JS.Str "ok")])] |} in
  (RolesDoc.cloudinary_delete Demo.cfg Demo.orc req (start ∅)).1
  = Sent answer
  ∧ JS.keys (json answer) ≠ ["ok"; "public_id"; "result"]%string
  ∧ JS.has (json answer) "public_id" = false
  ∧ JS.has (json answer) "result" = false.
Proof.
  intros req answer.
  split; [vm_compute; reflexivity|].
  split; [discriminate|]. split; reflexivity.
Qed.

(** C7, amended: with a public id to work on and the service configured,
    - [index.js] answers 200 [{ok: true, public_id, result}], [result]
      being what the client library returned, and 500 "Cloudinary delete
      failed" when the library rejects;
    - [part_000] answers 200 [{ok: true, cloudinary}] on a 2xx reply,
      [cloudinary] being the parsed reply (its text when it does not parse
      or parses to null), and 500 "Cloudinary destroy failed" with the
      status and the reply on any other status;
    and neither failure is the 400 of a missing public id. *)
Theorem delete_answer_shape (cfg : Config) (orc : Oracles) (req : Request)
    (w : World) (p : string) :
  JS.truthy (JS.get (body req) "public_id") = true →
  JS.to_string (JS.get (body req) "public_id") = Some p →
  env_ok cfg = true → firebase_ready cfg = true →
  let public_id := JS.get (body req) "public_id" in
  let ts := Date_now orc / 1000 in
  (∀ result, uploader_destroy orc public_id = inl result →
     (Legacy.cloudinary_delete cfg orc req w).1
     = Sent {| status := 200;
               json := [("ok", JS.Bool true); ("public_id", public_id);
                        ("result", result)] |})
  ∧ (∀ e, uploader_destroy orc public_id = inr e →
     (Legacy.cloudinary_delete cfg orc req w).1
     = Sent {| status := 500;
               json := [("error", JS.Str "Cloudinary delete failed");
                        ("details", JS.Str e)] |})
  ∧ (∀ code text,
       fetch orc (destroy_url cfg) (destroy_form cfg p ts)
       = inl (code, text) →
       (RolesDoc.cloudinary_delete cfg orc req w).1
       = if (200 <=? code) && (code <=? 299) then
           Sent {| status := 200;
                   json := [("ok", JS.Bool true);
                            ("cloudinary", RolesDoc.json_or_text orc text)] |}
         else
           Sent {| status := 500;
                   json := [("error", JS.Str "Cloudinary destroy failed");
                            ("status", JS.Num code);
                            ("body", RolesDoc.json_or_text orc text)] |})
  ∧ (∀ text v, JSON_parse orc text = Some v →
       v ≠ JS.Null → v ≠ JS.Undefined → RolesDoc.json_or_text orc text = v)
  ∧ (∀ text, JSON_parse orc text = None →
       RolesDoc.json_or_text orc text = JS.Str text).
Proof.
  intros Hpid Hp Henv Hfb public_id ts. subst public_id.
  split; [|split; [|split; [|split]]].
  - intros result Hres. rewrite Legacy_delete_run. cbv zeta.
    by rewrite Henv, Hfb, Hpid, Hres.
  - intros e Hres. rewrite Legacy_delete_run. cbv zeta.
    by rewrite Henv, Hfb, Hpid, Hres.
  - intros code text Hfetch. rewrite RolesDoc_delete_run. cbv zeta.
    rewrite Hpid, Henv, Hp. cbn [negb].
    change (unix_seconds orc) with ts. rewrite Hfetch.
    unfold RolesDoc.resp_ok. by destruct ((200 <=? code) && (code <=? 299)).
  - intros text v Hparse Hnull Hundef. unfold RolesDoc.json_or_text.
    rewrite Hparse. by destruct v.
  - intros text Hparse. unfold RolesDoc.json_or_text. by rewrite Hparse.
Qed.

Lemma delete_answer_shape_witness :
  (Legacy.cloudinary_delete Demo.cfg Demo.orc
     (incoming None [("public_id", JS.Str "p1")]) (start ∅)).1
  = Sent {| status := 200;
            json := [("ok", JS.Bool true); ("public_id", JS.Str "p1");
                     ("result", JS.Obj [("result", JS.Str "ok")])] |}
  ∧ (RolesDoc.cloudinary_delete Demo.cfg Demo.orc
       (incoming None [("public_id", JS.Str "gone")]) (start ∅)).1
    = Sent {| status := 500;
              json := [("error", JS.Str "Cloudinary destroy failed");
                       ("status", JS.Num 404);
                       ("body", JS.Str "missing")] |}.
Proof.
  split.
  - refine (proj1 (delete_answer_shape Demo.cfg Demo.orc
              (incoming None [("public_id", JS.Str "p1")]) (start ∅) "p1"
              _ _ _ _) _ _); reflexivity.
  - refine (proj1 (proj2 (proj2 (delete_answer_shape Demo.cfg Demo.orc
              (incoming None [("public_id", JS.Str "gone")]) (start ∅)
              "gone" _ _ _ _))) 404 "missing" _);
      vm_compute; reflexivity.
Defined.

(** ** The role write *)

Section RoleWrite.
Context (cfg : Config) (orc : Oracles).

Lemma is_str_eq (v : JS.value) (lit : string) :
  JS.is_str v lit = true ↔ v = JS.Str lit.
Proof.
  destruct v; simpl; try (split; [done|discriminate]).
  destruct (String.eqb_spec s lit) as [->|Hne]; split; try done.
  intros [= ->]. done.
Qed.

Lemma includes_allowed (v : JS.value) :
  RolesDoc.includes RolesDoc.allowed v = true →
  ∃ r, r ∈ RolesDoc.allowed ∧ v = JS.Str r.
Proof.
  unfold RolesDoc.includes, RolesDoc.allowed. cbn [existsb].
  rewrite !orb_true_iff. rewrite !is_str_eq.
  intros [->|[->|[->|?]]]; [| | |done]; eexists; (split; [|done]);
    set_solver.
Qed.

Lemma roles_set_run req w :
  RolesDoc.roles_set orc req w =
  let uid := JS.get (body req) "uid" in
  let role' := JS.get (body req) "role" in
  let fields := [("role", role'); ("updatedAt", serverTimestamp orc)] in
  if negb (JS.is_str (role req) "admin") then
    (Sent (error_response 403 "Admins only"), w)
  else if negb (JS.truthy uid) then
    (Sent (error_response 400 "uid required"), w)
  else if negb (RolesDoc.includes RolesDoc.allowed role') then
    (Sent (error_response 400 "invalid role"), w)
  else
    match doc_path orc uid with
    | inr e => (Sent (error_response 500 e), w)
    | inl path =>
        match firestore_down orc with
        | Some e =>
            (Sent (error_response 500 e), logged w [EvRoleSet path fields])
        | None =>
            (Sent {| status := 200;
                     json := [("ok", JS.Bool true); ("uid", uid);
                              ("role", role')] |},
             {| roles := <[path := list_to_map fields
                                   ∪ default ∅ (roles w !! path)]> (roles w);
                log := log w ++ [EvRoleSet path fields] |})
        end
    end.
Proof.
  unfold RolesDoc.roles_set. cbv zeta.
  destruct (JS.is_str (role req) "admin"); [|done].
  destruct (JS.truthy (JS.get (body req) "uid")); [|done].
  destruct (RolesDoc.includes RolesDoc.allowed _); [|done].
  run.
  destruct (doc_path orc _) as [path|e]; [|done].
  by destruct (firestore_down orc).
Qed.

Lemma post_roles_set_run req w :
  RolesDoc.post_roles_set cfg orc req w =
  match RolesDoc.gate cfg orc req w with
  | (Next req', w') => RolesDoc.roles_set orc req' w'
  | (Sent r, w') => (Sent r, w')
  | (Thrown e, w') => (Thrown e, w')
  end.
Proof. reflexivity. Qed.

Lemma writes_logged w evs :
  writes (logged w evs)
  = (writes w
     ++ List.filter (λ ev, match ev with
                           | EvRoleSet _ _ => true
                           | _ => false
                           end) evs)%list.
Proof. unfold writes, logged. simpl. by rewrite List.filter_app. Qed.

(** The two middlewares read the store and write nothing. *)
Lemma RolesDoc_gate_world req w o w' :
  RolesDoc.gate cfg orc req w = (o, w') →
  roles w' = roles w ∧ writes w' = writes w.
Proof.
  unfold RolesDoc.gate, RolesDoc.requireAuth,
    RolesDoc.requireAdminOrModeratorByRolesDoc. run.
  intros H. crunch; unfold writes; simpl;
    rewrite ?List.filter_app; simpl; by rewrite ?app_nil_r.
Qed.

End RoleWrite.

(** C8: on [/roles/set] a caller whose resolved role is [moderator] passes
    the shared gate and is then answered 403 "Admins only", the store left as
    it was.  Whenever serving a request changes the store or issues a write,
    the gate had resolved the caller's role to exactly [admin] and the
    written role is one of [admin], [moderator], [user]. *)
Theorem roles_set_admin_only (cfg : Config) (orc : Oracles) (req : Request)
    (w : World) :
  let out := RolesDoc.post_roles_set cfg orc req w in
  (∀ req' w',
     RolesDoc.gate cfg orc req w = (Next req', w') →
     role req' = JS.Str "moderator" →
     out = (Sent (error_response 403 "Admins only"), w')
     ∧ roles w' = roles w ∧ writes w' = writes w)
  ∧ (roles out.2 ≠ roles w ∨ writes out.2 ≠ writes w →
     ∃ req' w' r,
       RolesDoc.gate cfg orc req w = (Next req', w')
       ∧ role req' = JS.Str "admin"
       ∧ r ∈ RolesDoc.allowed
       ∧ JS.get (body req) "role" = JS.Str r)
  ∧ RolesDoc.allowed = ["admin"; "moderator"; "user"]%string.
Proof.
  intros out. subst out. rewrite post_roles_set_run.
  split; [|split; [|reflexivity]].
  - intros req' w' Hgate Hrole. rewrite Hgate, roles_set_run. cbv zeta.
    rewrite Hrole. cbn [JS.is_str String.eqb Ascii.eqb Bool.eqb negb].
    split; [done|]. exact (RolesDoc_gate_world cfg orc req w _ w' Hgate).
  - destruct (RolesDoc.gate cfg orc req w) as [[req'|r|e] w'] eqn:Hgate;
      pose proof (RolesDoc_gate_world cfg orc req w _ w' Hgate)
        as [Hroles Hwrites];
      [|cbn [snd]; intros [H|H]; congruence..].
    pose proof (RolesDoc_gate_Next cfg orc req w req' w' Hgate)
      as (tok & d & r0 & _ & _ & _ & _ & Hreq' & _).
    assert (Hbody : body req' = body req) by (by rewrite Hreq').
    rewrite roles_set_run. cbv zeta. rewrite Hbody.
    destruct (JS.is_str (role req') "admin") eqn:Hadmin; cbn [negb];
      [|cbn [snd]; intros [H|H]; congruence].
    destruct (JS.truthy (JS.get (body req) "uid")); cbn [negb];
      [|cbn [snd]; intros [H|H]; congruence].
    destruct (RolesDoc.includes RolesDoc.allowed (JS.get (body req) "role"))
      eqn:Hrole; cbn [negb]; [|cbn [snd]; intros [H|H]; congruence].
    intros _. apply is_str_eq in Hadmin.
    destruct (includes_allowed _ Hrole) as (r & Hin & Hr).
    by exists req', w', r.
Qed.

Lemma roles_set_admin_only_witness :
  RolesDoc.post_roles_set Demo.cfg Demo.orc
    (Demo.from "bob" [("uid", JS.Str "carol"); ("role", JS.Str "admin")])
    (start Demo.store)
  = (Sent (error_response 403 "Admins only"),
     logged (start Demo.store) [EvVerify "tok-bob"; EvRoleGet "bob"]).
Proof.
  refine (proj1 (proj1 (roles_set_admin_only Demo.cfg Demo.orc
            (Demo.from "bob" [("uid", JS.Str "carol");
                              ("role", JS.Str "admin")])
            (start Demo.store))
          {| authorization := Some "Bearer tok-bob";
             body := [("uid", JS.Str "carol"); ("role", JS.Str "admin")];
             user := Some {| uid := "bob" |};
             role := JS.Str "moderator" |}
          _ _ _)).
  - vm_compute. reflexivity.
  - reflexivity.
Defined.

Example admin_sets_role :
  let out := RolesDoc.post_roles_set Demo.cfg Demo.orc
               (Demo.from "alice" [("uid", JS.Str "carol");
                                   ("role", JS.Str "moderator")])
               (start Demo.store) in
  out.1 = Sent {| status := 200;
                  json := [("ok", JS.Bool true); ("uid", JS.Str "carol");
                           ("role", JS.Str "moderator")] |}
  ∧ roles out.2 !! "carol"%string
    = Some {[ "role"%string := JS.Str "moderator";
              "updatedAt"%string := JS.Num 1000000 ]}
  ∧ writes out.2
    = [EvRoleSet "carol" [("role", JS.Str "moderator");
                          ("updatedAt", JS.Num 1000000)]].
Proof.
  intros out. subst out.
  split; [vm_compute; reflexivity|].
  split; [vm_compute; reflexivity|vm_compute; reflexivity].
Qed.

(** ** The gate, by stored role *)

Section GateByRole.
Context (cfg : Config) (orc : Oracles).
Context (req : Request) (w : World) (tok : string) (d : Decoded).
Hypothesis Hready : firebase_ready cfg = true.
Hypothesis Hbearer : bearer (default "" (authorization req)) = Some tok.
Hypothesis Hverify : verifyIdToken orc tok = inl d.
Hypothesis Huid : uid d ≠ ""%string.
Hypothesis Hup : firestore_down orc = None.

Lemma RolesDoc_gate_valid (r : string) :
  RolesDoc.resolved_role (roles w !! uid d) = Some r →
  RolesDoc.gate cfg orc req w
  = (if String.eqb r "admin" || String.eqb r "moderator" then
       Next {| authorization := authorization req; body := body req;
               user := Some d; role := JS.Str r |}
     else Sent (error_response 403 "Forbidden: admin/moderator only"),
     logged w [EvVerify tok; EvRoleGet (uid d)]).
Proof.
  intros Hr.
  unfold RolesDoc.gate, RolesDoc.requireAuth,
    RolesDoc.requireAdminOrModeratorByRolesDoc. run.
  rewrite Hready, Hbearer, Hverify. simpl. destruct d as [id]. simpl in *.
  destruct (String.eqb_spec id "") as [->|_]; [done|].
  rewrite Hup. simpl. rewrite Hr. unfold logged. simpl.
  rewrite <- app_assoc. simpl.
  by destruct (String.eqb r "admin"), (String.eqb r "moderator").
Qed.

Lemma Legacy_gate_valid :
  env_ok cfg = true →
  Legacy.gate cfg orc req w
  = (if JS.is_str (Legacy.resolved_role (roles w !! uid d)) "admin" then
       Next {| authorization := authorization req; body := body req;
               user := Some d; role := role req |}
     else Sent (error_response 403 "Not admin"),
     logged w [EvVerify tok; EvRoleGet (uid d)]).
Proof.
  intros Henv.
  unfold Legacy.gate, Legacy.requireAuth, Legacy.requireAdmin,
    Legacy.mustHaveEnv. run.
  rewrite Henv, Hready, Hbearer, Hverify. simpl. destruct d as [id].
  simpl in *.
  destruct (String.eqb_spec id "") as [->|_]; [done|].
  rewrite Hup. simpl. unfold logged. simpl. rewrite <- app_assoc. simpl.
  by destruct (JS.is_str _ "admin").
Qed.

End GateByRole.

Lemma outbound_logged_gate w tok id :
  outbound (logged w [EvVerify tok; EvRoleGet id]) = outbound w.
Proof.
  unfold outbound, logged. simpl. rewrite List.filter_app. simpl.
  by rewrite app_nil_r.
Qed.

(** C9 as stated fails in [index.js]: a caller whose stored role is
    [moderator] is refused on [/sign] and on [/cloudinary/delete]. *)
Lemma index_js_rejects_moderator :
  Demo.store !! "bob"%string = Some {[ "role"%string := JS.Str "moderator" ]}
  ∧ Legacy.post_sign Demo.cfg Demo.orc
      (Demo.from "bob" [("folder", JS.Str "x")]) (start Demo.store)
    = (Sent (error_response 403 "Not admin"),
       logged (start Demo.store) [EvVerify "tok-bob"; EvRoleGet "bob"])
  ∧ Legacy.post_cloudinary_delete Demo.cfg Demo.orc
      (Demo.from "bob" [("public_id", JS.Str "p1")]) (start Demo.store)
    = (Sent (error_response 403 "Not admin"),
       logged (start Demo.store) [EvVerify "tok-bob"; EvRoleGet "bob"]).
Proof.
  split; [vm_compute; reflexivity|].
  split; vm_compute; reflexivity.
Qed.

(** C9, amended: for a request with a valid credential on [/sign] or
    [/cloudinary/delete], the gate reads the caller's role document.
    A stored role [admin] passes in both programs; a stored role
    [moderator] passes in [part_000] and is refused in [index.js], whose
    routes mount the admin-only check; a stored role [user] or a missing
    document (read as [user] by [index.js], as the empty role by
    [part_000]) is refused in both.  A refusal is a 403, and nothing is
    hashed and nothing is sent to the media service. *)
Theorem gate_by_stored_role (p : Program) (cfg : Config) (orc : Oracles)
    (req : Request) (w : World) (tok : string) (d : Decoded) :
  firebase_ready cfg = true → (p = IndexJs → env_ok cfg = true) →
  bearer (default "" (authorization req)) = Some tok →
  verifyIdToken orc tok = inl d → uid d ≠ ""%string →
  firestore_down orc = None →
  let stored := roles w !! uid d in
  let holds (r : string) :=
    ∃ doc, stored = Some doc ∧ doc !! "role"%string = Some (JS.Str r) in
  let after := logged w [EvVerify tok; EvRoleGet (uid d)] in
  let denied :=
    error_response 403 match p with
                       | IndexJs => "Not admin"
                       | Part000 => "Forbidden: admin/moderator only"
                       end in
  (holds "admin" ∨ (p = Part000 ∧ holds "moderator") →
   ∃ req', gate p cfg orc req w = (Next req', after)
           ∧ body req' = body req
           ∧ post_sign p cfg orc req w = sign p cfg orc req' after
           ∧ post_cloudinary_delete p cfg orc req w
             = cloudinary_delete p cfg orc req' after)
  ∧ (stored = None ∨ holds "user" ∨ (p = IndexJs ∧ holds "moderator") →
     gate p cfg orc req w = (Sent denied, after)
     ∧ post_sign p cfg orc req w = (Sent denied, after)
     ∧ post_cloudinary_delete p cfg orc req w = (Sent denied, after)
     ∧ hashes after = hashes w ∧ outbound after = outbound w)
  ∧ Legacy.resolved_role None = JS.Str "user"
  ∧ RolesDoc.resolved_role None = Some ""%string.
Proof.
  intros Hready Henv Hbearer Hverify Huid Hup stored holds after denied.
  assert (Hgate : ∀ r doc, stored = Some doc →
            doc !! "role"%string = Some (JS.Str r) →
            (r = "admin" ∨ r = "moderator" ∨ r = "user")%string →
            gate p cfg orc req w
            = (if match p with
                  | IndexJs => String.eqb r "admin"
                  | Part000 => String.eqb r "admin" || String.eqb r "moderator"
                  end
               then Next {| authorization := authorization req;
                            body := body req; user := Some d;
                            role := match p with
                                    | IndexJs => role req
                                    | Part000 => JS.Str r
                                    end |}
               else Sent denied, after)).
  { intros r doc Hdoc Hrole Hr. destruct p; simpl.
    - rewrite (Legacy_gate_valid cfg orc req w tok d) by auto.
      fold stored. rewrite Hdoc. unfold Legacy.resolved_role, role_field.
      rewrite Hrole.
      by destruct Hr as [->|[->| ->]].
    - rewrite (RolesDoc_gate_valid cfg orc req w tok d Hready Hbearer Hverify
                 Huid Hup r); [done|].
      fold stored. rewrite Hdoc. unfold RolesDoc.resolved_role, role_field.
      rewrite Hrole.
      by destruct Hr as [->|[->| ->]]. }
  assert (Hnone : stored = None → gate p cfg orc req w = (Sent denied, after)).
  { intros Hdoc. destruct p; simpl.
    - rewrite (Legacy_gate_valid cfg orc req w tok d) by auto.
      fold stored. by rewrite Hdoc.
    - rewrite (RolesDoc_gate_valid cfg orc req w tok d Hready Hbearer Hverify
                 Huid Hup ""); [done|].
      fold stored. by rewrite Hdoc. }
  split; [|split; [|split; reflexivity]].
  - intros Hpass.
    assert (∃ req', gate p cfg orc req w = (Next req', after)
                    ∧ body req' = body req) as (req' & Hg & Hb).
    { destruct Hpass as [(doc & Hdoc & Hrole)|[-> (doc & Hdoc & Hrole)]].
      - rewrite (Hgate "admin"%string doc Hdoc Hrole) by auto.
        destruct p; simpl; eauto.
      - rewrite (Hgate "moderator"%string doc Hdoc Hrole) by auto.
        simpl; eauto. }
    exists req'. split; [done|]. split; [done|].
    split; [by apply post_sign_Next|by apply post_cloudinary_delete_Next].
  - intros Hdeny.
    assert (Hg : gate p cfg orc req w = (Sent denied, after)).
    { destruct Hdeny as [Hdoc|[(doc & Hdoc & Hrole)|[-> (doc & Hdoc & Hrole)]]].
      - by apply Hnone.
      - rewrite (Hgate "user"%string doc Hdoc Hrole) by auto.
        by destruct p.
      - by rewrite (Hgate "moderator"%string doc Hdoc Hrole) by auto. }
    split; [done|].
    split; [by apply post_sign_Sent|].
    split; [by apply post_cloudinary_delete_Sent|].
    split; [apply hashes_logged_gate|apply outbound_logged_gate].
Qed.

Lemma gate_by_stored_role_witness :
  post_sign Part000 Demo.cfg Demo.orc
    (Demo.from "carol" [("folder", JS.Str "x")]) (start Demo.store)
  = (Sent (error_response 403 "Forbidden: admin/moderator only"),
     logged (start Demo.store) [EvVerify "tok-carol"; EvRoleGet "carol"])
  ∧ ∃ req',
      gate Part000 Demo.cfg Demo.orc
        (Demo.from "bob" [("folder", JS.Str "x")]) (start Demo.store)
      = (Next req',
         logged (start Demo.store) [EvVerify "tok-bob"; EvRoleGet "bob"])
      ∧ body req' = [("folder", JS.Str "x")].
Proof.
  split.
  - refine (proj1 (proj2 (proj1 (proj2
      (gate_by_stored_role Part000 Demo.cfg Demo.orc
         (Demo.from "carol" [("folder", JS.Str "x")]) (start Demo.store)
         "tok-carol" {| uid := "carol" |} _ _ _ _ _ _)) _))).
    + reflexivity.
    + discriminate.
    + vm_compute. reflexivity.
    + reflexivity.
    + discriminate.
    + reflexivity.
    + right. left. exists {[ "role"%string := JS.Str "user" ]}.
      split; vm_compute; reflexivity.
  - pose proof (gate_by_stored_role Part000 Demo.cfg Demo.orc
        (Demo.from "bob" [("folder", JS.Str "x")]) (start Demo.store)
        "tok-bob" {| uid := "bob" |}) as H.
    specialize (H eq_refl).
    assert (Henv : Part000 = IndexJs → env_ok Demo.cfg = true)
      by discriminate.
    specialize (H Henv).
    assert (Hbearer : bearer (default "" (authorization
                        (Demo.from "bob" [("folder", JS.Str "x")])))
                      = Some "tok-bob"%string) by (vm_compute; reflexivity).
    specialize (H Hbearer eq_refl).
    assert (Huid : uid {| uid := "bob" |} ≠ ""%string) by discriminate.
    specialize (H Huid eq_refl). cbv zeta in H.
    destruct H as [Hpass _].
    destruct Hpass as (req' & Hgate & Hbody & _).
    + right. split; [reflexivity|].
      exists {[ "role"%string := JS.Str "moderator" ]}.
      split; vm_compute; reflexivity.
    + exists req'. split; [exact Hgate|exact Hbody].
Defined.

(** * Further properties of the handlers *)

(** ** Every request gets one answer, and errors say so *)

Section Answers.
Context (cfg : Config) (orc : Oracles).

Lemma gate_refusal_or_pass (p : Program) req w :
  refusal_or_pass (gate p cfg orc req w).1.
Proof.
  destruct p; simpl;
    unfold Legacy.gate, Legacy.requireAuth, Legacy.requireAdmin,
      Legacy.mustHaveEnv, RolesDoc.gate, RolesDoc.requireAuth,
      RolesDoc.requireAdminOrModeratorByRolesDoc; run; crunch.
Qed.

Lemma sign_answered (p : Program) req w :
  answered (sign p cfg orc req w).1.
Proof.
  rewrite sign_run. cbv zeta.
  destruct p, (env_ok cfg), (firebase_ready cfg),
    (JS.truthy (JS.get (body req) "folder")); try reflexivity;
    by destruct (Signer.stringToSign _).
Qed.

Lemma delete_answered (p : Program) req w :
  answered (cloudinary_delete p cfg orc req w).1.
Proof.
  destruct p; simpl.
  - rewrite Legacy_delete_run. cbv zeta.
    destruct (env_ok cfg), (firebase_ready cfg),
      (JS.truthy (JS.get (body req) "public_id")); try reflexivity.
    by destruct (uploader_destroy orc _).
  - rewrite RolesDoc_delete_run. cbv zeta.
    destruct (JS.truthy (JS.get (body req) "public_id")), (env_ok cfg);
      try reflexivity.
    destruct (JS.to_string _); [|reflexivity]. cbn [negb].
    destruct (fetch orc _ _) as [[code text]|e]; [|reflexivity].
    unfold RolesDoc.resp_ok.
    destruct ((200 <=? code) && (code <=? 299)); reflexivity.
Qed.

Lemma roles_set_answered req w :
  answered (RolesDoc.roles_set orc req w).1.
Proof.
  rewrite roles_set_run. cbv zeta.
  destruct (JS.is_str (role req) "admin"),
    (JS.truthy (JS.get (body req) "uid")),
    (RolesDoc.includes RolesDoc.allowed (JS.get (body req) "role"));
    try reflexivity.
  cbn [negb]. destruct (doc_path orc _); [|reflexivity].
  by destruct (firestore_down orc).
Qed.

(** A route: the gate, then the handler. *)
Lemma route_answered {A} (g : M A) (h : A → M Empty_set) w :
  refusal_or_pass (g w).1 → (∀ a w', answered (h a w').1) →
  answered ((g ≫= h) w).1.
Proof.
  intros Hg Hh. cbv beta delta [mbind M_bind].
  destruct (g w) as [[a|r|e] w']; simpl in *; [apply Hh|tauto|done].
Qed.

End Answers.

Section OtherPrograms.
Context (cfg : Config) (st : SharedKey.Settings) (orc : Oracles).
Context (email_of : string → JS.value).

Lemma Open_sign_run req w :
  Open.sign cfg orc req w =
  let folder := JS.get (body req) "folder" in
  let public_id := JS.get (body req) "public_id" in
  let ts := unix_seconds orc in
  if negb (JS.truthy folder) then
    (Sent (error_response 400 "folder required"), w)
  else if negb (env_ok cfg) then
    (Sent (error_response 500 "Server env vars not set"), w)
  else
    match Signer.stringToSign (sign_params folder public_id ts) with
    | None => (Sent (error_response 500 not_primitive), w)
    | Some s =>
        (Sent {| status := 200;
                 json := sign_body Part000 cfg ts s folder public_id |},
         logged w [EvHash (s +:+ env_text (API_SECRET cfg))])
    end.
Proof.
  unfold Open.sign. run.
  destruct (JS.truthy (JS.get (body req) "folder")), (env_ok cfg);
    simpl; try done.
  by destruct (Signer.stringToSign _).
Qed.

Lemma Open_sign_answered req w : answered (Open.sign cfg orc req w).1.
Proof.
  rewrite Open_sign_run. cbv zeta.
  destruct (JS.truthy (JS.get (body req) "folder")), (env_ok cfg);
    try reflexivity.
  by destruct (Signer.stringToSign _).
Qed.

Lemma requireSignerKey_refusal_or_pass c w :
  refusal_or_pass (SharedKey.requireSignerKey st c w).1.
Proof. unfold SharedKey.requireSignerKey. run. crunch. Qed.

Lemma SharedKey_requireAdmin_refusal_or_pass req w :
  refusal_or_pass (SharedKey.requireAdmin cfg st orc email_of req w).1.
Proof. unfold SharedKey.requireAdmin. run. crunch. Qed.

Lemma SharedKey_post_sign_answered c w :
  answered (SharedKey.post_sign cfg st orc email_of c w).1.
Proof.
  unfold SharedKey.post_sign. apply route_answered.
  - apply requireSignerKey_refusal_or_pass.
  - intros c1 w1. apply route_answered.
    + apply SharedKey_requireAdmin_refusal_or_pass.
    + intros req' w'. apply (sign_answered cfg orc Part000).
Qed.

End OtherPrograms.

Lemma answered_inv {A} (o : Outcome A * World) :
  answered o.1 → ∃ r w', o = (Sent r, w') ∧ well_formed r = true.
Proof. destruct o as [[a|r|e] w']; simpl; [done| |done]. eauto. Qed.

(** X1: every route of the four programs answers every request, once: the
    outcome is a response, never an exception escaping the handler.  The
    response is a 200 without an [error] field or a 400, 401, 403 or 500 with
    one. *)
Theorem every_route_answers (cfg : Config) (st : SharedKey.Settings)
    (orc : Oracles) (email_of : string → JS.value) (req : Request)
    (key : option string) (w : World) :
  let good (o : Outcome Empty_set * World) :=
    ∃ r w', o = (Sent r, w') ∧ well_formed r = true in
  (∀ p, good (post_sign p cfg orc req w)
        ∧ good (post_cloudinary_delete p cfg orc req w))
  ∧ good (RolesDoc.post_roles_set cfg orc req w)
  ∧ good (SharedKey.post_sign cfg st orc email_of
            {| SharedKey.x_signer_key := key; SharedKey.request := req |} w)
  ∧ good (Open.post_sign cfg orc req w).
Proof.
  intros good. subst good. cbv beta.
  split; [intros p; split|split; [|split]]; apply answered_inv.
  - destruct p; apply route_answered;
      try (intros; apply (sign_answered cfg orc IndexJs));
      try (intros; apply (sign_answered cfg orc Part000)).
    + apply (gate_refusal_or_pass cfg orc IndexJs).
    + apply (gate_refusal_or_pass cfg orc Part000).
  - destruct p; apply route_answered;
      try (intros; apply (delete_answered cfg orc IndexJs));
      try (intros; apply (delete_answered cfg orc Part000)).
    + apply (gate_refusal_or_pass cfg orc IndexJs).
    + apply (gate_refusal_or_pass cfg orc Part000).
  - apply route_answered; [apply (gate_refusal_or_pass cfg orc Part000)|].
    intros. apply roles_set_answered.
  - apply SharedKey_post_sign_answered.
  - apply Open_sign_answered.
Qed.

(** ** What the gate does before it decides *)

Section GateEffects.
Context (cfg : Config) (orc : Oracles).

(** The gate reads: it leaves the store alone and logs a verification and a
    role lookup at most. *)
Lemma gate_reads_only (p : Program) req w :
  ∃ evs, (gate p cfg orc req w).2 = logged w evs
         ∧ forallb gate_event evs = true
         ∧ (length evs ≤ 2)%nat.
Proof.
  destruct p; simpl;
    unfold Legacy.gate, Legacy.requireAuth, Legacy.requireAdmin,
      Legacy.mustHaveEnv, RolesDoc.gate, RolesDoc.requireAuth,
      RolesDoc.requireAdminOrModeratorByRolesDoc; run; crunch;
    unfold logged; simpl;
    try (exists []; simpl; rewrite app_nil_r;
         split; [by match goal with x : World |- _ => destruct x end|];
         split; [done|lia]);
    try (eexists [_]; simpl; split; [reflexivity|split; [done|lia]]);
    try (eexists [_; _]; simpl; rewrite <- app_assoc;
         split; [reflexivity|split; [done|lia]]).
Qed.

Lemma filter_gate_events (f : Event → bool) evs :
  (∀ ev, gate_event ev = true → f ev = false) →
  forallb gate_event evs = true → List.filter f evs = [].
Proof.
  intros Hf. induction evs as [|ev evs IH]; simpl; [done|].
  intros [Hev Hevs]%andb_true_iff. by rewrite (Hf ev Hev), IH.
Qed.

Lemma omap_gate_events {B} (f : Event → option B) evs :
  (∀ ev, gate_event ev = true → f ev = None) →
  forallb gate_event evs = true → omap f evs = [].
Proof.
  intros Hf. induction evs as [|ev evs IH]; [done|].
  cbn [forallb]. intros [Hev Hevs]%andb_true_iff.
  change (omap f (ev :: evs))
    with (match f ev with Some y => y :: omap f evs | None => omap f evs end).
  rewrite (Hf ev Hev). by apply IH.
Qed.

Lemma gate_world (p : Program) req w :
  let w' := (gate p cfg orc req w).2 in
  roles w' = roles w ∧ hashes w' = hashes w ∧ outbound w' = outbound w
  ∧ writes w' = writes w ∧ fetches w' = fetches w.
Proof.
  destruct (gate_reads_only p req w) as (evs & -> & Hevs & _). cbv zeta.
  split; [done|].
  unfold hashes, outbound, writes, fetches, logged. cbn [log roles].
  rewrite omap_app, !List.filter_app.
  rewrite (omap_gate_events _ evs) by (try done; by intros []).
  rewrite !(filter_gate_events _ evs) by (try done; by intros []).
  by rewrite !app_nil_r.
Qed.

End GateEffects.

(** ** Requests the gate turns away *)

Ltac open_gate :=
  unfold gate, Legacy.gate, Legacy.requireAuth, Legacy.requireAdmin,
    Legacy.mustHaveEnv, RolesDoc.gate, RolesDoc.requireAuth,
    RolesDoc.requireAdminOrModeratorByRolesDoc;
  run.

Lemma routes_Sent (p : Program) cfg orc req w r w' :
  gate p cfg orc req w = (Sent r, w') →
  post_sign p cfg orc req w = (Sent r, w')
  ∧ post_cloudinary_delete p cfg orc req w = (Sent r, w').
Proof.
  intros H. split;
    [by apply post_sign_Sent|by apply post_cloudinary_delete_Sent].
Qed.

(** X2: a request whose [Authorization] header is absent, does not start
    with [Bearer ] (in this letter case), or has only blanks after it, is
    answered 401 by the gate of [index.js] and of [part_000]; no token is
    verified and no role is looked up. *)
Theorem missing_bearer_is_401 (p : Program) (cfg : Config) (orc : Oracles)
    (req : Request) (w : World) :
  firebase_ready cfg = true → (p = IndexJs → env_ok cfg = true) →
  authorization req = None
  ∨ (∃ h, authorization req = Some h
          ∧ (String.prefix "Bearer " h = false
             ∨ JS.trim (JS.slice 7 h) = ""%string)) →
  let refusal :=
    error_response 401 match p with
                       | IndexJs => "Missing Authorization Bearer token"
                       | Part000 => "Missing Authorization token"
                       end in
  gate p cfg orc req w = (Sent refusal, w)
  ∧ post_sign p cfg orc req w = (Sent refusal, w)
  ∧ post_cloudinary_delete p cfg orc req w = (Sent refusal, w).
Proof.
  intros Hready Henv Hauth refusal.
  assert (Hb : bearer (default "" (authorization req)) = None).
  { destruct Hauth as [->|(h & -> & [Hp|Ht])]; [done| |];
      change (default "" (Some h)) with h; unfold bearer.
    - by rewrite Hp.
    - rewrite Ht. by destruct (String.prefix _ h). }
  assert (Hg : gate p cfg orc req w = (Sent refusal, w)).
  { destruct p; open_gate; rewrite ?Henv by done; rewrite Hready, Hb; done. }
  split; [exact Hg|by apply routes_Sent].
Qed.

Lemma missing_bearer_is_401_witness :
  post_sign Part000 Demo.cfg Demo.orc
    (incoming (Some "bearer tok-alice") [("folder", JS.Str "x")])
    (start Demo.store)
  = (Sent (error_response 401 "Missing Authorization token"),
     start Demo.store).
Proof.
  refine (proj1 (proj2 (missing_bearer_is_401 Part000 Demo.cfg Demo.orc
            (incoming (Some "bearer tok-alice") [("folder", JS.Str "x")])
            (start Demo.store) eq_refl _ _))).
  - discriminate.
  - right. exists "bearer tok-alice"%string. split; [reflexivity|].
    left. reflexivity.
Defined.

(** X3: when the verifier rejects the token, the gate answers 401 "Invalid
    token" with the verifier's message; the role store is not consulted. *)
Theorem rejected_token_is_401 (p : Program) (cfg : Config) (orc : Oracles)
    (req : Request) (w : World) (tok e : string) :
  firebase_ready cfg = true → (p = IndexJs → env_ok cfg = true) →
  bearer (default "" (authorization req)) = Some tok →
  verifyIdToken orc tok = inr e →
  let refusal :=
    {| status := 401;
       json := [("error", JS.Str "Invalid token"); ("details", JS.Str e)] |} in
  gate p cfg orc req w = (Sent refusal, logged w [EvVerify tok])
  ∧ post_sign p cfg orc req w = (Sent refusal, logged w [EvVerify tok])
  ∧ post_cloudinary_delete p cfg orc req w
    = (Sent refusal, logged w [EvVerify tok]).
Proof.
  intros Hready Henv Hb Hv refusal.
  assert (Hg : gate p cfg orc req w = (Sent refusal, logged w [EvVerify tok])).
  { destruct p; open_gate; rewrite ?Henv by done;
      rewrite Hready, Hb, Hv; done. }
  split; [exact Hg|by apply routes_Sent].
Qed.

Lemma rejected_token_is_401_witness :
  post_sign IndexJs Demo.cfg Demo.orc
    (incoming (Some "Bearer forged") [("folder", JS.Str "x")])
    (start Demo.store)
  = (Sent {| status := 401;
             json := [("error", JS.Str "Invalid token");
                      ("details",
                       JS.Str "Error: Decoding Firebase ID token failed")] |},
     logged (start Demo.store) [EvVerify "forged"]).
Proof.
  refine (proj1 (proj2 (rejected_token_is_401 IndexJs Demo.cfg Demo.orc
            (incoming (Some "Bearer forged") [("folder", JS.Str "x")])
            (start Demo.store) "forged"
            "Error: Decoding Firebase ID token failed" eq_refl _ _ _)));
    reflexivity.
Defined.

(** X4: in [index.js] a missing Cloudinary variable or an uninitialised
    Firebase Admin makes the gate answer every request 401 "Invalid token",
    the cause in [details]: [mustHaveEnv] throws inside the [try] of
    [requireAuth].  Nothing is verified or looked up. *)
Theorem index_js_misconfiguration_is_401 (cfg : Config) (orc : Oracles)
    (req : Request) (w : World) :
  env_ok cfg = false ∨ firebase_ready cfg = false →
  let cause := if env_ok cfg then "Error: Firebase Admin not initialized"
               else "Error: Cloudinary env vars not set" in
  let refusal :=
    {| status := 401;
       json := [("error", JS.Str "Invalid token");
                ("details", JS.Str cause)] |} in
  Legacy.gate cfg orc req w = (Sent refusal, w)
  ∧ Legacy.post_sign cfg orc req w = (Sent refusal, w)
  ∧ Legacy.post_cloudinary_delete cfg orc req w = (Sent refusal, w).
Proof.
  intros Hcfg cause refusal.
  assert (Hg : gate IndexJs cfg orc req w = (Sent refusal, w)).
  { subst refusal cause. open_gate.
    destruct (env_ok cfg); [|done].
    destruct Hcfg as [?| ->]; done. }
  split; [exact Hg|exact (routes_Sent IndexJs cfg orc req w _ _ Hg)].
Qed.

Lemma index_js_misconfiguration_is_401_witness :
  let cfg := {| CLOUD_NAME := Some "demo"; API_KEY := Some "key";
                API_SECRET := None; firebase_ready := true |} in
  Legacy.post_sign cfg Demo.orc (Demo.from "alice" [("folder", JS.Str "x")])
    (start Demo.store)
  = (Sent {| status := 401;
             json := [("error", JS.Str "Invalid token");
                      ("details",
                       JS.Str "Error: Cloudinary env vars not set")] |},
     start Demo.store).
Proof.
  intros cfg.
  refine (proj1 (proj2 (index_js_misconfiguration_is_401 cfg Demo.orc
            (Demo.from "alice" [("folder", JS.Str "x")]) (start Demo.store)
            _))).
  left. reflexivity.
Defined.

(** X5: in [part_000] an uninitialised Firebase Admin makes the gate answer
    every request 500 "Firebase Admin not initialized"; and the gate never
    looks at the Cloudinary variables: two configurations that agree on
    Firebase give the same gate. *)
Theorem part000_gate_configuration (cfg cfg' : Config) (orc : Oracles)
    (req : Request) (w : World) :
  firebase_ready cfg = firebase_ready cfg' →
  RolesDoc.gate cfg orc req w = RolesDoc.gate cfg' orc req w
  ∧ (firebase_ready cfg = false →
     let refusal := error_response 500 "Firebase Admin not initialized" in
     RolesDoc.gate cfg orc req w = (Sent refusal, w)
     ∧ RolesDoc.post_sign cfg orc req w = (Sent refusal, w)
     ∧ RolesDoc.post_cloudinary_delete cfg orc req w = (Sent refusal, w)
     ∧ RolesDoc.post_roles_set cfg orc req w = (Sent refusal, w)).
Proof.
  intros Hsame. split.
  - unfold RolesDoc.gate, RolesDoc.requireAuth. by rewrite Hsame.
  - intros Hoff refusal.
    assert (Hg : gate Part000 cfg orc req w = (Sent refusal, w)).
    { open_gate. by rewrite Hoff. }
    split; [exact Hg|].
    destruct (routes_Sent Part000 cfg orc req w _ _ Hg) as [Hs Hd].
    split; [exact Hs|]. split; [exact Hd|].
    rewrite post_roles_set_run. simpl in Hg. by rewrite Hg.
Qed.

Lemma part000_gate_configuration_witness :
  let off := {| CLOUD_NAME := Some "demo"; API_KEY := Some "key";
                API_SECRET := Some "abc"; firebase_ready := false |} in
  RolesDoc.post_sign off Demo.orc (Demo.from "alice" [("folder", JS.Str "x")])
    (start Demo.store)
  = (Sent (error_response 500 "Firebase Admin not initialized"),
     start Demo.store).
Proof.
  intros off.
  refine (proj1 (proj2 (proj2 (part000_gate_configuration off off Demo.orc
            (Demo.from "alice" [("folder", JS.Str "x")]) (start Demo.store)
            eq_refl) eq_refl))).
Defined.

(** X6: when the role store fails while the gate reads it, the request is
    answered 500 "Role check failed" with the store's message, after the
    token was verified; nothing is hashed and nothing is sent out. *)
Theorem role_store_failure_is_500 (p : Program) (cfg : Config)
    (orc : Oracles) (req : Request) (w : World) (tok e : string)
    (d : Decoded) :
  firebase_ready cfg = true → (p = IndexJs → env_ok cfg = true) →
  bearer (default "" (authorization req)) = Some tok →
  verifyIdToken orc tok = inl d → uid d ≠ ""%string →
  firestore_down orc = Some e →
  let refusal :=
    {| status := 500;
       json := [("error", JS.Str "Role check failed");
                ("details", JS.Str e)] |} in
  let after := logged w [EvVerify tok; EvRoleGet (uid d)] in
  gate p cfg orc req w = (Sent refusal, after)
  ∧ post_sign p cfg orc req w = (Sent refusal, after)
  ∧ post_cloudinary_delete p cfg orc req w = (Sent refusal, after)
  ∧ hashes after = hashes w ∧ outbound after = outbound w.
Proof.
  intros Hready Henv Hb Hv Huid Hdown refusal after.
  assert (Hg : gate p cfg orc req w = (Sent refusal, after)).
  { destruct d as [id]. simpl in Huid.
    destruct p; open_gate; rewrite ?Henv by done;
      rewrite Hready, Hb, Hv; simpl;
      (destruct (String.eqb_spec id "") as [->|_]; [done|]);
      rewrite Hdown; simpl; subst after; unfold logged; simpl;
      by rewrite <- app_assoc. }
  split; [exact Hg|].
  destruct (routes_Sent p cfg orc req w _ _ Hg) as [Hs Hd].
  split; [exact Hs|]. split; [exact Hd|].
  split; [apply hashes_logged_gate|apply outbound_logged_gate].
Qed.

Lemma role_store_failure_is_500_witness :
  let down :=
    {| verifyIdToken := verifyIdToken Demo.orc; Date_now := 1000000;
       firestore_down := Some "Error: 14 UNAVAILABLE";
       doc_path := doc_path Demo.orc; serverTimestamp := JS.Num 1000000;
       uploader_destroy := uploader_destroy Demo.orc;
       fetch := fetch Demo.orc; JSON_parse := JSON_parse Demo.orc |} in
  post_sign Part000 Demo.cfg down (Demo.from "alice" [("folder", JS.Str "x")])
    (start Demo.store)
  = (Sent {| status := 500;
             json := [("error", JS.Str "Role check failed");
                      ("details", JS.Str "Error: 14 UNAVAILABLE")] |},
     logged (start Demo.store) [EvVerify "tok-alice"; EvRoleGet "alice"]).
Proof.
  intros down.
  refine (proj1 (proj2 (role_store_failure_is_500 Part000 Demo.cfg down
            (Demo.from "alice" [("folder", JS.Str "x")]) (start Demo.store)
            "tok-alice" "Error: 14 UNAVAILABLE" {| uid := "alice" |}
            eq_refl _ _ eq_refl _ eq_refl))).
  - discriminate.
  - vm_compute. reflexivity.
  - discriminate.
Defined.

(** ** How a stored role is read *)

Lemma RolesDoc_resolved_role_Str (doc : gmap string JS.value) (s : string) :
  doc !! "role"%string = Some (JS.Str s) →
  RolesDoc.resolved_role (Some doc) = Some (JS.trim (JS.toLowerCase s)).
Proof.
  intros Hrole. unfold RolesDoc.resolved_role, role_field. rewrite Hrole.
  cbn [default from_option id]. unfold JS.or. cbn [JS.truthy].
  by destruct (String.eqb_spec s "") as [->|_].
Qed.

Lemma Legacy_resolved_role_Str (doc : gmap string JS.value) (s : string) :
  doc !! "role"%string = Some (JS.Str s) →
  JS.is_str (Legacy.resolved_role (Some doc)) "admin" = String.eqb s "admin".
Proof.
  intros Hrole. unfold Legacy.resolved_role, role_field. rewrite Hrole.
  cbn [default from_option id]. unfold JS.or. cbn [JS.truthy].
  by destruct (String.eqb_spec s "") as [->|_].
Qed.

(** X7: [part_000] compares the stored role after lowering its letters and
    trimming it, so a role stored as [" Admin "] opens the gate (and
    [/roles/set]) like [admin]; [index.js] compares the stored string as it
    is and lets only the exact [admin] through. *)
Theorem stored_role_normalisation (cfg : Config) (orc : Oracles)
    (req : Request) (w : World) (tok s : string) (d : Decoded)
    (doc : gmap string JS.value) :
  firebase_ready cfg = true →
  bearer (default "" (authorization req)) = Some tok →
  verifyIdToken orc tok = inl d → uid d ≠ ""%string →
  firestore_down orc = None →
  roles w !! uid d = Some doc → doc !! "role"%string = Some (JS.Str s) →
  let r := JS.trim (JS.toLowerCase s) in
  let after := logged w [EvVerify tok; EvRoleGet (uid d)] in
  let passed (role' : JS.value) :=
    {| authorization := authorization req; body := body req;
       user := Some d; role := role' |} in
  RolesDoc.gate cfg orc req w
  = (if String.eqb r "admin" || String.eqb r "moderator"
     then Next (passed (JS.Str r))
     else Sent (error_response 403 "Forbidden: admin/moderator only"), after)
  ∧ (env_ok cfg = true →
     Legacy.gate cfg orc req w
     = (if String.eqb s "admin" then Next (passed (role req))
        else Sent (error_response 403 "Not admin"), after)).
Proof.
  intros Hready Hb Hv Huid Hup Hdoc Hrole r after passed. split.
  - apply (RolesDoc_gate_valid cfg orc req w tok d Hready Hb Hv Huid Hup).
    rewrite Hdoc. by apply RolesDoc_resolved_role_Str.
  - intros Henv.
    rewrite (Legacy_gate_valid cfg orc req w tok d Hready Hb Hv Huid Hup Henv).
    rewrite Hdoc. by rewrite (Legacy_resolved_role_Str doc s Hrole).
Qed.

Lemma stored_role_normalisation_witness :
  let store : gmap string (gmap string JS.value) :=
    {[ "dave"%string := {[ "role"%string := JS.Str " Admin " ]} ]} in
  let req := Demo.from "dave" [("folder", JS.Str "x")] in
  let after := logged (start store) [EvVerify "tok-dave"; EvRoleGet "dave"] in
  RolesDoc.gate Demo.cfg Demo.orc req (start store)
  = (Next {| authorization := authorization req; body := body req;
             user := Some {| uid := "dave" |}; role := JS.Str "admin" |},
     after)
  ∧ Legacy.gate Demo.cfg Demo.orc req (start store)
    = (Sent (error_response 403 "Not admin"), after).
Proof.
  intros store req after.
  assert (Hb : bearer (default "" (authorization req)) = Some "tok-dave"%string)
    by (vm_compute; reflexivity).
  assert (Huid : uid {| uid := "dave" |} ≠ ""%string) by discriminate.
  assert (Hdoc : roles (start store) !! uid {| uid := "dave" |}
                 = Some {[ "role"%string := JS.Str " Admin " ]})
    by (vm_compute; reflexivity).
  assert (Hrole : ({[ "role"%string := JS.Str " Admin " ]}
                     : gmap string JS.value) !! "role"%string
                  = Some (JS.Str " Admin "))
    by (vm_compute; reflexivity).
  destruct (stored_role_normalisation Demo.cfg Demo.orc req (start store)
              "tok-dave" " Admin " {| uid := "dave" |} _
              eq_refl Hb eq_refl Huid eq_refl Hdoc Hrole) as [H1 H2].
  split; [exact H1|exact (H2 eq_refl)].
Defined.

(** X8: [requireModeratorOrAdmin], which [index.js] defines next to
    [requireAdmin], lets through every request [requireAdmin] lets through,
    with the same effects; what it lets through beyond that is refused by
    [requireAdmin] with 403 "Not admin". *)
Theorem moderator_or_admin_extends_admin (orc : Oracles) (req : Request)
    (w : World) :
  (∀ req' w',
     Legacy.requireAdmin orc req w = (Next req', w') →
     Legacy.requireModeratorOrAdmin orc req w = (Next req', w'))
  ∧ (∀ req' w',
       Legacy.requireModeratorOrAdmin orc req w = (Next req', w') →
       req' = req
       ∧ (Legacy.requireAdmin orc req w = (Next req', w')
          ∨ Legacy.requireAdmin orc req w
            = (Sent (error_response 403 "Not admin"), w')))
  ∧ (∀ r w',
       Legacy.requireModeratorOrAdmin orc req w = (Sent r, w') →
       status r = 403 →
       r = error_response 403 "Not allowed"
       ∧ Legacy.requireAdmin orc req w
         = (Sent (error_response 403 "Not admin"), w')).
Proof.
  unfold Legacy.requireAdmin, Legacy.requireModeratorOrAdmin. run.
  destruct (user req) as [[id]|];
    [|repeat split; intros; simplify_eq; done].
  destruct (String.eqb id "").
  { repeat split; intros; simplify_eq; done. }
  destruct (firestore_down orc); simpl.
  { repeat split; intros; simplify_eq; done. }
  destruct (JS.is_str _ "admin"), (JS.is_str _ "moderator"); simpl;
    (split; [|split]); intros; simplify_eq; auto.
Qed.

(** ** More on [/sign] *)

(** X9: with a Cloudinary variable missing, the [/sign] handlers of
    [part_000] and of the third program of [index.js] still report a missing
    folder first (400) and answer 500 otherwise, while the handler of the
    first program of [index.js] answers 500 whatever the body; none hashes
    anything. *)
Theorem sign_check_order (cfg : Config) (orc : Oracles) (req : Request)
    (w : World) :
  env_ok cfg = false →
  let folder := JS.get (body req) "folder" in
  RolesDoc.sign cfg orc req w
  = (Sent (if JS.truthy folder
           then error_response 500 "Cloudinary env vars not set"
           else error_response 400 "folder required"), w)
  ∧ Open.sign cfg orc req w
    = (Sent (if JS.truthy folder
             then error_response 500 "Server env vars not set"
             else error_response 400 "folder required"), w)
  ∧ Legacy.sign cfg orc req w
    = (Sent (error_response 500 "Error: Cloudinary env vars not set"), w).
Proof.
  intros Henv folder. subst folder.
  rewrite Open_sign_run.
  rewrite (sign_run cfg orc Part000 req w : RolesDoc.sign cfg orc req w = _).
  rewrite (sign_run cfg orc IndexJs req w : Legacy.sign cfg orc req w = _).
  cbv zeta. rewrite Henv. cbn [negb andb].
  by destruct (JS.truthy (JS.get (body req) "folder")).
Qed.

Lemma sign_check_order_witness :
  let cfg := {| CLOUD_NAME := Some "demo"; API_KEY := Some "";
                API_SECRET := Some "abc"; firebase_ready := true |} in
  RolesDoc.sign cfg Demo.orc (incoming None []) (start ∅)
  = (Sent (error_response 400 "folder required"), start ∅)
  ∧ Legacy.sign cfg Demo.orc (incoming None []) (start ∅)
    = (Sent (error_response 500 "Error: Cloudinary env vars not set"),
       start ∅).
Proof.
  intros cfg.
  destruct (sign_check_order cfg Demo.orc (incoming None []) (start ∅)
              eq_refl) as (H1 & _ & H3).
  split; [exact H1|exact H3].
Defined.

Section SignEffects.
Context (cfg : Config) (orc : Oracles).

Lemma sign_effects (p : Program) req w :
  let out := sign p cfg orc req w in
  (∃ r i, out = (Sent r, logged w [EvHash i]) ∧ status r = 200)
  ∨ (∃ r, out = (Sent r, w) ∧ status r ≠ 200).
Proof.
  cbv zeta. rewrite sign_run. cbv zeta.
  destruct p, (env_ok cfg), (firebase_ready cfg),
    (JS.truthy (JS.get (body req) "folder")); cbn [andb];
    try (right; eexists; split; [reflexivity|done]);
    (destruct (Signer.stringToSign _);
     [left; by eexists _, _|right; eexists; split; [reflexivity|done]]).
Qed.

Lemma logged_world w i :
  roles (logged w [EvHash i]) = roles w
  ∧ writes (logged w [EvHash i]) = writes w
  ∧ outbound (logged w [EvHash i]) = outbound w
  ∧ hashes (logged w [EvHash i]) = (hashes w ++ [i])%list.
Proof.
  unfold writes, outbound, hashes, logged. cbn [roles log].
  rewrite omap_app, !List.filter_app. simpl. by rewrite !app_nil_r.
Qed.

End SignEffects.

(** X10: serving [/sign] never changes the role store, never writes to it
    and never calls the media service; it computes one digest when it
    answers 200 and none otherwise. *)
Theorem sign_route_effects (p : Program) (cfg : Config) (orc : Oracles)
    (req : Request) (w : World) :
  let out := post_sign p cfg orc req w in
  roles out.2 = roles w ∧ writes out.2 = writes w
  ∧ outbound out.2 = outbound w
  ∧ ((∃ r i, out.1 = Sent r ∧ status r = 200
             ∧ hashes out.2 = (hashes w ++ [i])%list)
     ∨ (∃ r, out.1 = Sent r ∧ status r ≠ 200 ∧ hashes out.2 = hashes w)).
Proof.
  intros out. subst out.
  pose proof (gate_world cfg orc p req w) as (Hr & Hh & Ho & Hw & _).
  pose proof (gate_refusal_or_pass cfg orc p req w) as Hg.
  destruct (gate p cfg orc req w) as [[req'|r|e] w1] eqn:Hgate;
    cbn [fst snd] in *; [| |done].
  - rewrite (post_sign_Next cfg orc p req w req' w1 Hgate).
    destruct (sign_effects cfg orc p req' w1)
      as [(r & i & -> & H200)|(r & -> & Hne)]; cbn [fst snd].
    + destruct (logged_world w1 i) as (Hr1 & Hw1 & Ho1 & Hh1).
      rewrite Hr1, Hw1, Ho1, Hh1, Hr, Hw, Ho, Hh.
      repeat split. left. by exists r, i.
    + repeat split; try done. right. by exists r.
  - rewrite (post_sign_Sent cfg orc p req w r w1 Hgate). cbn [fst snd].
    destruct Hg as [_ Hne].
    repeat split; try done. right. by exists r.
Qed.

(** X11: the [signature] field of every 200 from a [/sign] handler is a
    string of forty characters, each one of [0-9a-f]. *)
Theorem signature_is_forty_hex_digits (cfg : Config) (orc : Oracles)
    (req : Request) (w w' : World) (r : Response) :
  (∃ p, sign p cfg orc req w = (Sent r, w'))
  ∨ Open.sign cfg orc req w = (Sent r, w') →
  status r = 200 →
  ∃ sig, JS.get (json r) "signature" = JS.Str sig
         ∧ String.length sig = 40%nat
         ∧ Forall (λ a, is_lower_hex a = true) (list_ascii_of_string sig).
Proof.
  intros Hrun H200.
  assert (∃ s, JS.get (json r) "signature" = JS.Str (SHA1.hex s))
    as (s & ->).
  { destruct Hrun as [(p & Hrun)|Hrun].
    - destruct (sign_200 cfg orc p req w r w' Hrun H200)
        as (_ & _ & s & _ & -> & _).
      exists (s +:+ env_text (API_SECRET cfg)). by destruct p.
    - rewrite Open_sign_run in Hrun. cbv zeta in Hrun.
      destruct (JS.truthy (JS.get (body req) "folder")), (env_ok cfg);
        cbn [negb] in Hrun; try (injection Hrun as <- <-; discriminate).
      destruct (Signer.stringToSign _) as [s|];
        [|injection Hrun as <- <-; discriminate].
      injection Hrun as <- <-.
      by exists (s +:+ env_text (API_SECRET cfg)). }
  eexists. split; [reflexivity|apply sha1_hex_shape].
Qed.

Lemma signature_is_forty_hex_digits_witness :
  ∃ sig,
    JS.get (sign_body IndexJs Demo.cfg 1000 "folder=x&timestamp=1000"
              (JS.Str "x") JS.Undefined) "signature" = JS.Str sig
    ∧ String.length sig = 40%nat
    ∧ Forall (λ a, is_lower_hex a = true) (list_ascii_of_string sig).
Proof.
  refine (signature_is_forty_hex_digits Demo.cfg Demo.orc
            (incoming None [("folder", JS.Str "x")]) (start ∅)
            (logged (start ∅) [EvHash "folder=x&timestamp=1000abc"])
            {| status := 200;
               json := sign_body IndexJs Demo.cfg 1000
                         "folder=x&timestamp=1000" (JS.Str "x")
                         JS.Undefined |} _ eq_refl).
  left. exists IndexJs. vm_compute. reflexivity.
Defined.

(** X12: in a 200 of [part_000] the field [stringToSign] is
    [folder=<folder>&timestamp=<ts>], with [&public_id=<public_id>] between
    the two when the body has a truthy public id, and [signature] is the
    SHA-1 of that field followed by the secret: the caller can check one
    against the other. *)
Theorem string_to_sign_is_echoed (cfg : Config) (orc : Oracles)
    (req : Request) (w w' : World) (r : Response) :
  RolesDoc.sign cfg orc req w = (Sent r, w') → status r = 200 →
  let folder := JS.get (body req) "folder" in
  let public_id := JS.get (body req) "public_id" in
  let ts := pretty (Date_now orc / 1000) in
  ∃ s f,
    JS.get (json r) "stringToSign" = JS.Str s
    ∧ JS.get (json r) "signature"
      = JS.Str (SHA1.hex (s +:+ env_text (API_SECRET cfg)))
    ∧ JS.to_string folder = Some f
    ∧ (JS.truthy public_id = false →
       s = "folder=" +:+ f +:+ "&timestamp=" +:+ ts)
    ∧ (JS.truthy public_id = true →
       ∃ q, JS.to_string public_id = Some q
            ∧ s = "folder=" +:+ f +:+ "&public_id=" +:+ q
                  +:+ "&timestamp=" +:+ ts).
Proof.
  intros Hrun H200 folder public_id ts.
  destruct (sign_200 cfg orc Part000 req w r w' Hrun H200)
    as (_ & _ & s & Hs & -> & _).
  rewrite stringToSign_sign_params in Hs. fold folder public_id in Hs.
  destruct (JS.to_string folder) as [f|]; [|discriminate].
  exists s, f. split; [reflexivity|]. split; [reflexivity|].
  split; [reflexivity|]. cbn in Hs.
  destruct (JS.truthy public_id).
  - split; [discriminate|]. intros _.
    destruct (JS.to_string public_id) as [q|]; [|discriminate].
    exists q. split; [reflexivity|]. by injection Hs as <-.
  - split; [|discriminate]. intros _. by injection Hs as <-.
Qed.

Lemma string_to_sign_is_echoed_witness :
  ∃ s f,
    JS.get (sign_body Part000 Demo.cfg 1000
              "folder=x&public_id=p1&timestamp=1000"
              (JS.Str "x") (JS.Str "p1")) "stringToSign" = JS.Str s
    ∧ s = "folder=x&public_id=p1&timestamp=1000"%string
    ∧ f = "x"%string.
Proof.
  destruct (string_to_sign_is_echoed Demo.cfg Demo.orc
              (incoming None [("folder", JS.Str "x");
                              ("public_id", JS.Str "p1")]) (start ∅)
              (logged (start ∅)
                 [EvHash "folder=x&public_id=p1&timestamp=1000abc"])
              {| status := 200;
                 json := sign_body Part000 Demo.cfg 1000
                           "folder=x&public_id=p1&timestamp=1000"
                           (JS.Str "x") (JS.Str "p1") |})
    as (s & f & Hs & _ & Hf & _ & Hq).
  - vm_compute. reflexivity.
  - reflexivity.
  - exists s, f. split; [exact Hs|].
    destruct (Hq eq_refl) as (q & Hq1 & Hq2).
    injection Hf as <-. injection Hq1 as <-. split; [exact Hq2|reflexivity].
Defined.

(** X13: on a configured service the [/sign] handlers agree.  Those of
    [part_000] and of the third program of [index.js] give the same outcome
    on every request; that of the first program of [index.js] leaves the
    same world and sends the same status and the same fields, but for
    [stringToSign], which it does not send. *)
Theorem sign_handlers_agree (cfg : Config) (orc : Oracles) (req : Request)
    (w : World) :
  env_ok cfg = true → firebase_ready cfg = true →
  Open.sign cfg orc req w = RolesDoc.sign cfg orc req w
  ∧ ∃ r1 r2 w',
      Legacy.sign cfg orc req w = (Sent r1, w')
      ∧ RolesDoc.sign cfg orc req w = (Sent r2, w')
      ∧ status r1 = status r2
      ∧ (∀ k, k ≠ "stringToSign"%string →
              JS.get (json r1) k = JS.get (json r2) k)
      ∧ JS.has (json r1) "stringToSign" = false.
Proof.
  intros Henv Hready.
  split;
    rewrite ?Open_sign_run;
    rewrite (sign_run cfg orc Part000 req w : RolesDoc.sign cfg orc req w = _);
    rewrite ?(sign_run cfg orc IndexJs req w
              : Legacy.sign cfg orc req w = _);
    cbv zeta; rewrite Henv, ?Hready; cbn [negb andb].
  - by destruct (JS.truthy (JS.get (body req) "folder")).
  - destruct (JS.truthy (JS.get (body req) "folder"));
      [destruct (Signer.stringToSign _) as [s|]|];
      eexists _, _, _; (split; [reflexivity|]); (split; [reflexivity|]);
      (split; [reflexivity|]); (split; [|reflexivity]); try done.
    intros k Hk. unfold sign_body. cbn [app json].
    rewrite !(app_nil_r (signature_result _ _ _ _ _)).
    unfold signature_result. cbn [JS.get app].
    repeat (destruct (String.eqb _ k); [reflexivity|]).
    destruct (String.eqb_spec "stringToSign" k) as [<-|_]; [done|].
    reflexivity.
Qed.

Lemma sign_handlers_agree_witness :
  Open.sign Demo.cfg Demo.orc (incoming None [("folder", JS.Str "x")])
    (start ∅)
  = RolesDoc.sign Demo.cfg Demo.orc (incoming None [("folder", JS.Str "x")])
      (start ∅).
Proof.
  exact (proj1 (sign_handlers_agree Demo.cfg Demo.orc
                  (incoming None [("folder", JS.Str "x")])
                  (start ∅) eq_refl eq_refl)).
Defined.

(** ** More on [/cloudinary/delete] *)

Section DeleteEffects.
Context (cfg : Config) (orc : Oracles).

Lemma delete_effects (p : Program) req w :
  let out := cloudinary_delete p cfg orc req w in
  ∃ evs, out.2 = logged w evs ∧ (length (outbound (logged (start ∅) evs)) ≤ 1)%nat
         ∧ List.filter (λ ev, match ev with
                              | EvRoleSet _ _ => true
                              | _ => false
                              end) evs = [].
Proof.
  cbv zeta. destruct p; simpl.
  - rewrite Legacy_delete_run. cbv zeta.
    destruct (env_ok cfg), (firebase_ready cfg),
      (JS.truthy (JS.get (body req) "public_id")); cbn [negb snd];
      try (exists []; unfold logged; rewrite app_nil_r;
           split; [by destruct w|]; split; [simpl; lia|done]).
    destruct (uploader_destroy orc _); cbn [snd];
      (eexists; split; [reflexivity|]; split; [simpl; lia|done]).
  - rewrite RolesDoc_delete_run. cbv zeta.
    destruct (JS.truthy (JS.get (body req) "public_id")), (env_ok cfg);
      cbn [negb snd];
      try (exists []; unfold logged; rewrite app_nil_r;
           split; [by destruct w|]; split; [simpl; lia|done]).
    destruct (JS.to_string _); cbn [snd];
      [|exists []; unfold logged; rewrite app_nil_r;
        split; [by destruct w|]; split; [simpl; lia|done]].
    destruct (fetch orc _ _) as [[code text]|e];
      [destruct (RolesDoc.resp_ok code)|]; cbn [snd];
      (eexists; split; [reflexivity|]; split; [simpl; lia|done]).
Qed.

Lemma outbound_logged w evs :
  outbound (logged w evs)
  = (outbound w ++ outbound (logged (start ∅) evs))%list.
Proof. unfold outbound, logged, start. simpl. by rewrite List.filter_app. Qed.

End DeleteEffects.

(** X14: a [/cloudinary/delete] request that reached the handler with
    [public_id] missing or empty is answered 400 "public_id required";
    nothing is hashed and the media service is not called. *)
Theorem delete_rejects_missing_public_id (p : Program) (cfg : Config)
    (orc : Oracles) (req req' : Request) (w w' : World) :
  JS.has (body req) "public_id" = false
  ∨ JS.get (body req) "public_id" = JS.Str "" →
  gate p cfg orc req w = (Next req', w') →
  post_cloudinary_delete p cfg orc req w
  = (Sent (error_response 400 "public_id required"), w')
  ∧ hashes w' = hashes w ∧ outbound w' = outbound w.
Proof.
  intros Hpid Hgate.
  rewrite (post_cloudinary_delete_Next cfg orc p req w req' w' Hgate).
  pose proof (gate_world cfg orc p req w) as (_ & Hh & Ho & _).
  rewrite Hgate in Hh, Ho. cbn [snd] in Hh, Ho.
  destruct (gate_Next cfg orc p req w req' w' Hgate) as (Hbody & Henv & _).
  assert (Hfalsy : JS.truthy (JS.get (body req') "public_id") = false).
  { rewrite Hbody. destruct Hpid as [H|H].
    - by rewrite (get_no_property _ _ H).
    - by rewrite H. }
  split; [|done]. destruct p; simpl.
  - rewrite Legacy_delete_run. cbv zeta.
    destruct (Henv eq_refl) as [-> ->]. by rewrite Hfalsy.
  - rewrite RolesDoc_delete_run. cbv zeta. by rewrite Hfalsy.
Qed.

Lemma delete_rejects_missing_public_id_witness :
  post_cloudinary_delete IndexJs Demo.cfg Demo.orc (Demo.from "alice" [])
    (start Demo.store)
  = (Sent (error_response 400 "public_id required"),
     logged (start Demo.store) [EvVerify "tok-alice"; EvRoleGet "alice"]).
Proof.
  eapply (delete_rejects_missing_public_id IndexJs Demo.cfg Demo.orc
            (Demo.from "alice" []) _ (start Demo.store)).
  - left. reflexivity.
  - vm_compute. reflexivity.
Defined.

(** X15: serving [/cloudinary/delete] calls the media service at most once
    (a failed call is not tried again) and neither changes the role store
    nor writes to it. *)
Theorem delete_calls_out_at_most_once (p : Program) (cfg : Config)
    (orc : Oracles) (req : Request) (w : World) :
  let out := post_cloudinary_delete p cfg orc req w in
  roles out.2 = roles w ∧ writes out.2 = writes w
  ∧ ∃ calls, outbound out.2 = (outbound w ++ calls)%list
             ∧ (length calls ≤ 1)%nat.
Proof.
  intros out. subst out.
  pose proof (gate_world cfg orc p req w) as (Hr & _ & Ho & Hw & _).
  destruct (gate p cfg orc req w) as [[req'|r|e] w1] eqn:Hgate;
    cbn [snd] in *.
  - rewrite (post_cloudinary_delete_Next cfg orc p req w req' w1 Hgate).
    destruct (delete_effects cfg orc p req' w1) as (evs & -> & Hlen & Hnw).
    split; [exact Hr|]. split.
    + rewrite writes_logged, Hnw, app_nil_r. exact Hw.
    + rewrite outbound_logged, Ho. eauto.
  - rewrite (post_cloudinary_delete_Sent cfg orc p req w r w1 Hgate).
    cbn [snd]. repeat split; try done. exists []. rewrite app_nil_r.
    split; [done|simpl; lia].
  - pose proof (gate_refusal_or_pass cfg orc p req w) as Hg.
    by rewrite Hgate in Hg.
Qed.

Lemma stringToSign_public_id_timestamp (v : JS.value) (p ts : string) :
  JS.to_string v = Some p →
  Signer.stringToSign [("public_id", v); ("timestamp", JS.Str ts)]
  = Some ("public_id=" +:+ p +:+ "&timestamp=" +:+ ts).
Proof.
  intros Hp. unfold Signer.stringToSign.
  change (Signer.sorted_keys [("public_id", v); ("timestamp", JS.Str ts)])
    with ["public_id"; "timestamp"]%string.
  unfold Signer.pair. cbn [mapM].
  change (JS.get [("public_id", v); ("timestamp", JS.Str ts)] "public_id")
    with v.
  change (JS.get [("public_id", v); ("timestamp", JS.Str ts)] "timestamp")
    with (JS.Str ts).
  rewrite Hp. cbn. unfold JS.join. cbn. by rewrite !append_assoc.
Qed.

(** X16: whatever [part_000] posts to the media service while serving
    [/cloudinary/delete] goes to the destroy URL of the configured cloud and
    is the form [api_key, timestamp, public_id, signature] in which
    [signature] is the Signer's signature, under the secret, of the form's
    own [public_id] and [timestamp]; and its input was hashed just before. *)
Theorem destroy_form_is_signed (cfg : Config) (orc : Oracles)
    (req : Request) (w : World) (url : string)
    (form : list (string * string)) :
  let w' := (RolesDoc.cloudinary_delete cfg orc req w).2 in
  EvFetch url form ∈ log w' → EvFetch url form ∉ log w →
  ∃ p ts sig,
    JS.to_string (JS.get (body req) "public_id") = Some p
    ∧ ts = pretty (Date_now orc / 1000)
    ∧ url = "https://api.cloudinary.com/v1_1/"
            +:+ env_text (CLOUD_NAME cfg) +:+ "/image/destroy"
    ∧ form = [("api_key", env_text (API_KEY cfg)); ("timestamp", ts);
              ("public_id", p); ("signature", sig)]
    ∧ Signer.sign [("public_id", JS.Str p); ("timestamp", JS.Str ts)]
        (env_text (API_SECRET cfg)) = Some sig
    ∧ log w' = (log w ++ [EvHash ("public_id=" +:+ p +:+ "&timestamp=" +:+ ts
                                  +:+ env_text (API_SECRET cfg));
                          EvFetch url form])%list.
Proof.
  cbv zeta. rewrite RolesDoc_delete_run. cbv zeta.
  destruct (JS.truthy (JS.get (body req) "public_id")), (env_ok cfg);
    cbn [negb snd]; try (intros Hin Hout; contradiction).
  destruct (JS.to_string (JS.get (body req) "public_id")) as [p|];
    cbn [snd]; [|intros Hin Hout; contradiction].
  assert (Hworld : ∀ o : Outcome Empty_set * World,
            o.2 = logged w [EvHash (destroy_text p (unix_seconds orc)
                                    +:+ env_text (API_SECRET cfg));
                            EvFetch (destroy_url cfg)
                              (destroy_form cfg p (unix_seconds orc))] →
            EvFetch url form ∈ log o.2 → EvFetch url form ∉ log w →
            ∃ p0 ts sig,
              Some p = Some p0
              ∧ ts = pretty (Date_now orc / 1000)
              ∧ url = "https://api.cloudinary.com/v1_1/"
                      +:+ env_text (CLOUD_NAME cfg) +:+ "/image/destroy"
              ∧ form = [("api_key", env_text (API_KEY cfg));
                        ("timestamp", ts); ("public_id", p0);
                        ("signature", sig)]
              ∧ Signer.sign [("public_id", JS.Str p0);
                             ("timestamp", JS.Str ts)]
                  (env_text (API_SECRET cfg)) = Some sig
              ∧ log o.2
                = (log w ++ [EvHash ("public_id=" +:+ p0 +:+ "&timestamp="
                                     +:+ ts +:+ env_text (API_SECRET cfg));
                             EvFetch url form])%list).
  { intros o -> Hin Hout. unfold logged in *. cbn [log] in *.
    apply elem_of_app in Hin as [Hin|Hin]; [contradiction|].
    apply elem_of_cons in Hin as [Hin|Hin]; [discriminate|].
    apply list_elem_of_singleton in Hin. injection Hin as -> ->.
    exists p, (pretty (unix_seconds orc)),
      (SHA1.hex (destroy_text p (unix_seconds orc)
                 +:+ env_text (API_SECRET cfg))).
    split; [done|]. split; [done|]. split; [done|]. split; [done|].
    split.
    - unfold Signer.sign.
      by rewrite (stringToSign_public_id_timestamp (JS.Str p) p _ eq_refl).
    - unfold destroy_text. by rewrite !append_assoc. }
  destruct (fetch orc _ _) as [[code text]|e];
    [destruct (RolesDoc.resp_ok code)|]; apply Hworld; reflexivity.
Qed.

Lemma destroy_form_is_signed_witness :
  ∃ p ts sig,
    JS.to_string (JS.get [("public_id", JS.Str "p1")] "public_id") = Some p
    ∧ ts = pretty (Date_now Demo.orc / 1000)
    ∧ "https://api.cloudinary.com/v1_1/demo/image/destroy"%string
      = "https://api.cloudinary.com/v1_1/"
        +:+ env_text (CLOUD_NAME Demo.cfg) +:+ "/image/destroy"
    ∧ destroy_form Demo.cfg "p1" 1000
      = [("api_key", env_text (API_KEY Demo.cfg)); ("timestamp", ts);
         ("public_id", p); ("signature", sig)]
    ∧ Signer.sign [("public_id", JS.Str p); ("timestamp", JS.Str ts)]
        (env_text (API_SECRET Demo.cfg)) = Some sig.
Proof.
  destruct (destroy_form_is_signed Demo.cfg Demo.orc
              (incoming None [("public_id", JS.Str "p1")]) (start ∅)
              "https://api.cloudinary.com/v1_1/demo/image/destroy"
              (destroy_form Demo.cfg "p1" 1000))
    as (p & ts & sig & H1 & H2 & H3 & H4 & H5 & _).
  - vm_compute. constructor 2. constructor 1.
  - apply not_elem_of_nil.
  - exists p, ts, sig. repeat split; assumption.
Defined.

(** X17: [part_000] answers a delete with 200 exactly when the service is
    configured, the body has a public id and the media service replied with
    a status from 200 to 299: a thrown call, any other status, a missing
    public id or a missing variable never reads as a success. *)
Theorem delete_200_iff_remote_2xx (cfg : Config) (orc : Oracles)
    (req : Request) (w w' : World) (r : Response) :
  RolesDoc.cloudinary_delete cfg orc req w = (Sent r, w') →
  status r = 200
  ↔ ∃ p code text,
      JS.to_string (JS.get (body req) "public_id") = Some p
      ∧ JS.truthy (JS.get (body req) "public_id") = true
      ∧ env_ok cfg = true
      ∧ fetch orc (destroy_url cfg)
          (destroy_form cfg p (Date_now orc / 1000)) = inl (code, text)
      ∧ 200 ≤ code ≤ 299.
Proof.
  rewrite RolesDoc_delete_run. cbv zeta.
  change (unix_seconds orc) with (Date_now orc / 1000).
  destruct (JS.truthy (JS.get (body req) "public_id")) eqn:Hpid; cbn [negb];
    [|intros [= <- <-]; split;
      [discriminate|intros (? & ? & ? & _ & ? & _); discriminate]].
  destruct (env_ok cfg) eqn:Henv; cbn [negb];
    [|intros [= <- <-]; split;
      [discriminate|intros (? & ? & ? & _ & _ & ? & _); discriminate]].
  destruct (JS.to_string (JS.get (body req) "public_id")) as [p|];
    [|intros [= <- <-]; split;
      [discriminate|intros (? & ? & ? & ? & _); discriminate]].
  destruct (fetch orc _ _) as [[code text]|e] eqn:Hfetch.
  - unfold RolesDoc.resp_ok.
    destruct ((200 <=? code) && (code <=? 299)) eqn:Hok;
      intros [= <- <-]; split.
    + intros _. exists p, code, text.
      apply andb_true_iff in Hok as [H1 H2].
      repeat split; try done; lia.
    + done.
    + discriminate.
    + intros (p' & code' & text' & [= <-] & _ & _ & Hf & Hcode).
      rewrite Hfetch in Hf. injection Hf as <- <-.
      apply andb_false_iff in Hok as [H|H]; lia.
  - intros [= <- <-]. split; [discriminate|].
    intros (p' & code' & text' & [= <-] & _ & _ & Hf & _).
    rewrite Hfetch in Hf. discriminate.
Qed.

Lemma delete_200_iff_remote_2xx_witness :
  ∃ p code text,
    JS.to_string (JS.get [("public_id", JS.Str "p1")] "public_id") = Some p
    ∧ JS.truthy (JS.get [("public_id", JS.Str "p1")] "public_id") = true
    ∧ env_ok Demo.cfg = true
    ∧ fetch Demo.orc (destroy_url Demo.cfg)
        (destroy_form Demo.cfg p (Date_now Demo.orc / 1000))
      = inl (code, text)
    ∧ 200 ≤ code ≤ 299.
Proof.
  refine (proj1 (delete_200_iff_remote_2xx Demo.cfg Demo.orc
            (incoming None [("public_id", JS.Str "p1")]) (start ∅)
            (logged (start ∅)
               [EvHash "public_id=p1&timestamp=1000abc";
                EvFetch (destroy_url Demo.cfg)
                  (destroy_form Demo.cfg "p1" 1000)])
            {| status := 200;
               json := [("ok", JS.Bool true);
                        ("cloudinary", JS.Obj [("result", JS.Str "ok")])] |}
            _) eq_refl).
  vm_compute. reflexivity.
Defined.

(** ** More on [/roles/set] *)

Section RoleWriteFacts.
Context (orc : Oracles).

Lemma includes_allowed_iff (v : JS.value) :
  RolesDoc.includes RolesDoc.allowed v = true
  ↔ v = JS.Str "admin" ∨ v = JS.Str "moderator" ∨ v = JS.Str "user".
Proof.
  unfold RolesDoc.includes, RolesDoc.allowed. cbn [existsb].
  rewrite !orb_true_iff, !is_str_eq. intuition discriminate.
Qed.

(** A 200 from the handler, taken apart. *)
Lemma roles_set_200 req w r w' :
  RolesDoc.roles_set orc req w = (Sent r, w') → status r = 200 →
  ∃ path role_s,
    JS.is_str (role req) "admin" = true
    ∧ doc_path orc (JS.get (body req) "uid") = inl path
    ∧ firestore_down orc = None
    ∧ JS.get (body req) "role" = JS.Str role_s
    ∧ (role_s = "admin" ∨ role_s = "moderator" ∨ role_s = "user")%string
    ∧ roles w'
      = <[path := list_to_map [("role"%string, JS.Str role_s);
                               ("updatedAt"%string, serverTimestamp orc)]
                  ∪ default ∅ (roles w !! path)]> (roles w).
Proof.
  rewrite roles_set_run. cbv zeta.
  destruct (JS.is_str (role req) "admin"); cbn [negb];
    [|intros [= <- <-]; discriminate].
  destruct (JS.truthy (JS.get (body req) "uid")); cbn [negb];
    [|intros [= <- <-]; discriminate].
  destruct (RolesDoc.includes _ _) eqn:Hinc; cbn [negb];
    [|intros [= <- <-]; discriminate].
  destruct (doc_path orc _) as [path|e]; [|intros [= <- <-]; discriminate].
  destruct (firestore_down orc); intros [= <- <-]; [discriminate|].
  intros _. apply includes_allowed_iff in Hinc.
  destruct Hinc as [Hr|[Hr|Hr]]; rewrite Hr;
    eexists path, _; repeat split; auto.
Qed.

End RoleWriteFacts.

(** X18: [/roles/set] takes a role only as one of the three strings
    [admin], [moderator], [user], in this letter case: from an admin with a
    [uid], any other value is answered 400 "invalid role"; without a [uid]
    the answer is 400 "uid required"; the store is left as it was. *)
Theorem roles_set_validation (orc : Oracles) (req : Request) (w : World) :
  role req = JS.Str "admin" →
  let uid := JS.get (body req) "uid" in
  let role' := JS.get (body req) "role" in
  (JS.truthy uid = false →
   RolesDoc.roles_set orc req w
   = (Sent (error_response 400 "uid required"), w))
  ∧ (JS.truthy uid = true →
     role' ≠ JS.Str "admin" → role' ≠ JS.Str "moderator" →
     role' ≠ JS.Str "user" →
     RolesDoc.roles_set orc req w
     = (Sent (error_response 400 "invalid role"), w)).
Proof.
  intros Hadmin uid role'. subst uid role'.
  rewrite roles_set_run. cbv zeta. rewrite Hadmin.
  cbn [JS.is_str String.eqb Ascii.eqb Bool.eqb negb].
  split.
  - intros ->. reflexivity.
  - intros -> H1 H2 H3. cbn [negb].
    destruct (RolesDoc.includes _ _) eqn:Hinc; [|reflexivity].
    apply includes_allowed_iff in Hinc. tauto.
Qed.

Lemma roles_set_validation_witness :
  RolesDoc.roles_set Demo.orc
    {| authorization := None;
       body := [("uid", JS.Str "carol"); ("role", JS.Str "Admin")];
       user := Some {| uid := "alice" |}; role := JS.Str "admin" |}
    (start Demo.store)
  = (Sent (error_response 400 "invalid role"), start Demo.store).
Proof.
  refine (proj2 (roles_set_validation Demo.orc
            {| authorization := None;
               body := [("uid", JS.Str "carol"); ("role", JS.Str "Admin")];
               user := Some {| uid := "alice" |}; role := JS.Str "admin" |}
            (start Demo.store) eq_refl) eq_refl _ _ _); discriminate.
Defined.



(** X20: a role write merges: the documents of other users stay as they
    were, and so does every field of the written document other than [role]
    and [updatedAt]. *)
Theorem role_write_merges (orc : Oracles) (req : Request) (w w' : World)
    (r : Response) :
  RolesDoc.roles_set orc req w = (Sent r, w') → status r = 200 →
  ∃ path,
    doc_path orc (JS.get (body req) "uid") = inl path
    ∧ (∀ other, other ≠ path → roles w' !! other = roles w !! other)
    ∧ (∀ field, field ≠ "role"%string → field ≠ "updatedAt"%string →
         (roles w' !! path) ≫= (λ doc, doc !! field)
         = (roles w !! path) ≫= (λ doc, doc !! field)).
Proof.
  intros Hrun H200.
  destruct (roles_set_200 orc req w r w' Hrun H200)
    as (path & role_s & _ & Hpath & _ & _ & _ & ->).
  exists path. split; [exact Hpath|]. split.
  - intros other Hne. by rewrite lookup_insert_ne.
  - intros field Hrole Hupd. rewrite lookup_insert_eq. cbn [mbind option_bind].
    rewrite lookup_union_r.
    + by destruct (roles w !! path).
    + cbn. by rewrite !lookup_insert_ne, lookup_empty.
Qed.

Lemma role_write_merges_witness :
  let store : gmap string (gmap string JS.value) :=
    {[ "carol"%string := {[ "role"%string := JS.Str "user";
                            "note"%string := JS.Str "since 2024" ]} ]} in
  let req := {| authorization := None;
                body := [("uid", JS.Str "carol"); ("role", JS.Str "admin")];
                user := Some {| uid := "alice" |}; role := JS.Str "admin" |} in
  (roles (RolesDoc.roles_set Demo.orc req (start store)).2 !! "carol"%string)
    ≫= (λ doc, doc !! "note"%string)
  = Some (JS.Str "since 2024").
Proof.
  intros store req.
  set (out := RolesDoc.roles_set Demo.orc req (start store)).
  assert (Hout : out = (Sent {| status := 200;
                                json := [("ok", JS.Bool true);
                                         ("uid", JS.Str "carol");
                                         ("role", JS.Str "admin")] |},
                        out.2)) by (vm_compute; reflexivity).
  destruct (role_write_merges Demo.orc req (start store) out.2 _
              Hout eq_refl) as (path & Hpath & _ & Hfields).
  injection Hpath as <-.
  rewrite (Hfields "note"%string) by discriminate.
  vm_compute. reflexivity.
Defined.



(** ** The other two programs of [src/index.js] *)

(** X22: the second program checks the shared key first.  Without a
    [SIGNER_KEY] on the server every [/sign] is answered 500 "Server
    SIGNER_KEY not set"; with one, a request whose [x-signer-key] header is
    absent or different is answered 401 "Invalid signer key".  In both
    cases no token is verified and nothing is hashed. *)
Theorem signer_key_comes_first (cfg : Config) (st : SharedKey.Settings)
    (orc : Oracles) (email_of : string → JS.value) (c : SharedKey.Call)
    (w : World) :
  (SharedKey.SIGNER_KEY st = None ∨ SharedKey.SIGNER_KEY st = Some ""%string →
   SharedKey.post_sign cfg st orc email_of c w
   = (Sent (error_response 500 "Server SIGNER_KEY not set"), w))
  ∧ (∀ k, SharedKey.SIGNER_KEY st = Some k → k ≠ ""%string →
          SharedKey.x_signer_key c ≠ Some k →
          SharedKey.post_sign cfg st orc email_of c w
          = (Sent (error_response 401 "Invalid signer key"), w)).
Proof.
  unfold SharedKey.post_sign, SharedKey.requireSignerKey.
  cbv beta iota delta [mbind M_bind send mret M_ret].
  split.
  - by intros [-> | ->].
  - intros k -> Hk Hgot. destruct k as [|a k]; [done|].
    destruct (SharedKey.x_signer_key c) as [got|]; [|done].
    destruct (String.eqb_spec got "") as [->|_]; [done|].
    destruct (String.eqb_spec got (String a k)) as [->|_]; [done|].
    reflexivity.
Qed.

Section SharedKeyGate.
Context (cfg : Config) (st : SharedKey.Settings) (orc : Oracles).
Context (email_of : string → JS.value).


End SharedKeyGate.



(** X24: the third program signs for anyone: its [/sign] reads the body
    only, so the answer is the same with any [Authorization] header or none,
    and no token is verified and no role looked up on the way. *)
Theorem open_sign_ignores_credentials (cfg : Config) (orc : Oracles)
    (req1 req2 : Request) (w : World) :
  body req1 = body req2 →
  Open.post_sign cfg orc req1 w = Open.post_sign cfg orc req2 w
  ∧ verifications (Open.post_sign cfg orc req1 w).2 = verifications w
  ∧ ∃ evs, (Open.post_sign cfg orc req1 w).2 = logged w evs
           ∧ Forall (λ ev, ∃ i, ev = EvHash i) evs.
Proof.
  intros Hbody. unfold Open.post_sign. rewrite !Open_sign_run. cbv zeta.
  rewrite Hbody. split; [reflexivity|].
  assert (Hnil : w = logged w []).
  { unfold logged. rewrite app_nil_r. by destruct w. }
  destruct (JS.truthy (JS.get (body req2) "folder")), (env_ok cfg);
    cbn [negb snd]; try (split; [done|by exists []]).
  destruct (Signer.stringToSign _) as [s|]; cbn [snd];
    [|split; [done|by exists []]].
  split.
  - unfold verifications, logged. cbn [log]. rewrite List.filter_app.
    simpl. by rewrite app_nil_r.
  - eexists. split; [reflexivity|]. repeat constructor. by eexists.
Qed.

Lemma open_sign_ignores_credentials_witness :
  Open.post_sign Demo.cfg Demo.orc
    (incoming None [("folder", JS.Str "x")]) (start ∅)
  = Open.post_sign Demo.cfg Demo.orc
      (incoming (Some "Bearer forged") [("folder", JS.Str "x")]) (start ∅).
Proof.
  exact (proj1 (open_sign_ignores_credentials Demo.cfg Demo.orc
                  (incoming None [("folder", JS.Str "x")])
                  (incoming (Some "Bearer forged") [("folder", JS.Str "x")])
                  (start ∅) eq_refl)).
Defined.

(** ** Start-up and the gate *)

(** X25: a [FIREBASE_SERVICE_ACCOUNT_JSON] that starts with a brace and does
    not parse leaves Firebase Admin uninitialised even when a good
    [FIREBASE_SERVICE_ACCOUNT_BASE64] is set: the fallback is taken only
    when the first variable is empty or does not start with a brace.  The
    service then refuses every gated request, with 500 in [part_000] and
    with 401 in [index.js]. *)
Theorem broken_json_account_disables_the_service (sdk : Startup.Sdk)
    (e : Startup.Env) (j : string) (cfg : Config) (orc : Oracles)
    (req : Request) (w : World) :
  Startup.FIREBASE_SERVICE_ACCOUNT_JSON e = Some j →
  String.prefix "{" (JS.trim j) = true →
  Startup.parse sdk j = None →
  firebase_ready cfg = Startup.initFirebaseAdmin sdk e →
  Startup.initFirebaseAdmin sdk e = false
  ∧ (∀ p, ∃ r, post_sign p cfg orc req w = (Sent r, w)
               ∧ post_cloudinary_delete p cfg orc req w = (Sent r, w)
               ∧ status r = match p with IndexJs => 401 | Part000 => 500 end).
Proof.
  intros Hj Hbrace Hparse Hready.
  assert (Hoff : Startup.initFirebaseAdmin sdk e = false).
  { unfold Startup.initFirebaseAdmin, Startup.serviceAccount.
    rewrite Hj. cbn [default from_option id env JS.truthy].
    rewrite Hbrace.
    destruct (String.eqb_spec j "") as [->|_]; [done|].
    cbn [negb andb]. by rewrite Hparse. }
  split; [exact Hoff|]. rewrite Hoff in Hready.
  intros p. destruct p.
  - destruct (env_ok cfg) eqn:Henv; eexists; (split; [|split]);
      try (apply (post_sign_Sent cfg orc IndexJs); open_gate;
           rewrite Hready, Henv; reflexivity);
      try (apply (post_cloudinary_delete_Sent cfg orc IndexJs); open_gate;
           rewrite Hready, Henv; reflexivity);
      reflexivity.
  - eexists. split; [|split].
    + apply (post_sign_Sent cfg orc Part000). open_gate. by rewrite Hready.
    + apply (post_cloudinary_delete_Sent cfg orc Part000). open_gate.
      by rewrite Hready.
    + reflexivity.
Qed.

Lemma broken_json_account_disables_the_service_witness :
  let sdk := {| Startup.from_base64 := λ s, "{}"%string;
                Startup.parse := λ s, if String.eqb s "{}"
                                      then Some (JS.Obj []) else None;
                Startup.initializeApp := λ _, true |} in
  let e := {| Startup.FIREBASE_SERVICE_ACCOUNT_JSON := Some "{ oops";
              Startup.FIREBASE_SERVICE_ACCOUNT_BASE64 := Some "e30=" |} in
  Startup.initFirebaseAdmin sdk e = false
  ∧ Startup.initFirebaseAdmin sdk
      {| Startup.FIREBASE_SERVICE_ACCOUNT_JSON := None;
         Startup.FIREBASE_SERVICE_ACCOUNT_BASE64 := Some "e30=" |} = true.
Proof.
  intros sdk e. split; [|reflexivity].
  refine (proj1 (broken_json_account_disables_the_service sdk e "{ oops"
            {| CLOUD_NAME := Some "demo"; API_KEY := Some "key";
               API_SECRET := Some "abc";
               firebase_ready := Startup.initFirebaseAdmin sdk e |}
            Demo.orc (incoming None []) (start ∅) eq_refl _ _ eq_refl));
    reflexivity.
Defined.
